(** * sage.misc.edit_module: locating a source file and calling an editor

    A shallow embedding of [src/sage/misc/edit_module.py].

    Modelling conventions.
    - A Python [str] is a [string]; its characters are the code points
      below 256.
    - A Python [dict] used as a mapping is a [gmap string pyval]; a Python
      [set] of names is a [gset string].
    - The module global [edit_template] and the commands given to
      [os.system] form the [State]; a function that reads or writes them
      is a computation in the monad [M], which also carries the
      exceptions.
    - The only loop of the module, the [while] of [template_fields], is
      run with fuel: [None] means that the fuel did not suffice.
    - What the module takes from elsewhere ([sage.misc.sageinspect],
      [sage.env], [os.environ], the file system) is a field of [World]. *)

From Stdlib Require Import ZArith String Ascii List Lia DecimalString.
From stdpp Require Import base gmap sets list strings.

Set Warnings "-clear-no-such-hyp".

Open Scope string_scope.

(** ** Python values and exceptions *)

Inductive pyval :=
| PyNone
| PyBool (b : bool)
| PyInt (z : Z)
| PyStr (s : string).

(** [str(v)] *)
Definition str (v : pyval) : string :=
  match v with
  | PyNone => "None"
  | PyBool true => "True"
  | PyBool false => "False"
  | PyInt z => NilZero.string_of_int (Z.to_int z)
  | PyStr s => s
  end.

(** The [ValueError]s that can occur, named by their message:
    - [TemplateVariables]: "Only ${file} and ${line} are allowed as
      template variables, and ${file} must occur." ([set_edit_template]);
    - [EditorNameNotKnown]: "editor_name not known. Try
      set_edit_template(<template_string>) instead." ([set_editor]);
    - [NoDefaultTemplate]: "Use set_edit_template(<template_string>) to
      set a default" ([edit]);
    - [InvalidPlaceholder]: "Invalid placeholder in string: line %d, col
      %d", raised by [string.Template.substitute]; the position is not
      modelled;
    - [EmbeddedNullByte]: "embedded null byte", raised by [os.system] on
      a command that has the character of code 0. *)
Inductive value_error :=
| TemplateVariables
| EditorNameNotKnown
| NoDefaultTemplate
| InvalidPlaceholder
| EmbeddedNullByte.

Inductive exception :=
| ValueError (msg : value_error)
| KeyError (key : string)
| IndexError
| OtherError (name : string).

Inductive result (A : Type) :=
| Return (a : A)
| Raise (e : exception).
Arguments Return {A} a.
Arguments Raise {A} e.

Definition rbind {A B} (r : result A) (k : A → result B) : result B :=
  match r with
  | Return a => k a
  | Raise e => Raise e
  end.

(** ** Strings *)

Definition in_range (lo hi c : ascii) : bool :=
  (lo <=? c)%char && (c <=? hi)%char.

Definition is_empty (s : string) : bool :=
  match s with
  | EmptyString => true
  | String _ _ => false
  end.

(** [s[-1]] *)
Fixpoint last_char (s : string) : option ascii :=
  match s with
  | EmptyString => None
  | String c EmptyString => Some c
  | String _ r => last_char r
  end.

(** [s[:-n]] *)
Definition drop_end (n : nat) (s : string) : string :=
  substring 0 (String.length s - n) s.

(** [s.endswith(suffix)] *)
Definition endswith (s suffix : string) : bool :=
  (String.length suffix <=? String.length s)%nat &&
  (substring (String.length s - String.length suffix)
             (String.length suffix) s =? suffix)%string.

(** [s.find(sub)], [None] standing for -1 *)
Definition find (s sub : string) : option nat := index 0 sub s.

(** [readline()] on the text that is left of a file opened in text mode:
    the line with its newline, and what follows it. *)
Fixpoint readline (s : string) : string * string :=
  match s with
  | EmptyString => (EmptyString, EmptyString)
  | String c r =>
      if (c =? "010")%char then (String c EmptyString, r)
      else let '(l, r') := readline r in (String c l, r')
  end.

(** [str.isspace] on one character *)
Definition is_space (c : ascii) : bool :=
  in_range "009" "013" c || in_range "028" " " c ||
  (c =? "133")%char || (c =? "160")%char.

(** [s.split()]: [cur] is the word being read *)
Fixpoint split_from (cur s : string) : list string :=
  match s with
  | EmptyString => if is_empty cur then [] else [cur]
  | String c r =>
      if is_space c
      then (if is_empty cur then split_from "" r else cur :: split_from "" r)
      else split_from (cur +:+ String c EmptyString) r
  end.

Definition split (s : string) : list string := split_from "" s.

(** [sep.join(l)] *)
Fixpoint join (sep : string) (l : list string) : string :=
  match l with
  | [] => ""
  | [x] => x
  | x :: l' => x +:+ sep +:+ join sep l'
  end.

(** ** [string.Template] *)

Record Template := { template : string }.

(** The identifier pattern of [Template]: an ASCII letter or underscore,
    then ASCII letters, digits and underscores ([idpattern] under
    [re.IGNORECASE]). *)
Definition is_id_start (c : ascii) : bool :=
  (c =? "_")%char || in_range "a" "z" c || in_range "A" "Z" c.

Definition is_id_char (c : ascii) : bool :=
  is_id_start c || in_range "0" "9" c.

(** The longest run of identifier characters at the head of [s], and the
    rest of [s]. *)
Fixpoint span_id (s : string) : string * string :=
  match s with
  | EmptyString => (EmptyString, EmptyString)
  | String c r =>
      if is_id_char c
      then let '(i, r') := span_id r in (String c i, r')
      else (EmptyString, s)
  end.

(** The named groups of [Template.pattern]; one of them is set in every
    match. *)
Inductive group :=
| Escaped
| Named (name : string)
| Braced (name : string)
| Invalid.

(** A match of the pattern at a delimiter: [r] is the text after the
    [$]; the result is the group that matched and the number of characters
    of [r] the match takes. The alternatives are tried in the order of
    the pattern: [escaped] (a second delimiter), [named] (an identifier),
    [braced] (an identifier in braces), [invalid] (nothing). *)
Definition match_delim (r : string) : group * nat :=
  match r with
  | EmptyString => (Invalid, 0)
  | String c r' =>
      if (c =? "$")%char then (Escaped, 1)
      else if is_id_start c then
        let '(i, _) := span_id r in (Named i, String.length i)
      else if (c =? "{")%char then
        match r' with
        | String c' _ =>
            if is_id_start c' then
              match span_id r' with
              | (i, String c'' _) =>
                  if (c'' =? "}")%char then (Braced i, String.length i + 2)
                  else (Invalid, 0)
              | (_, EmptyString) => (Invalid, 0)
              end
            else (Invalid, 0)
        | EmptyString => (Invalid, 0)
        end
      else (Invalid, 0)
  end.

(** What [pattern.sub] walks over: the characters outside the matches and
    the matches, from left to right. *)
Inductive piece :=
| Text (c : ascii)
| Match (g : group).

(** [skip] characters belong to the match before. *)
Fixpoint scan (skip : nat) (s : string) : list piece :=
  match s with
  | EmptyString => []
  | String c r =>
      match skip with
      | S k => scan k r
      | O =>
          if (c =? "$")%char
          then let '(g, n) := match_delim r in Match g :: scan n r
          else Text c :: scan 0 r
      end
  end.

Definition finditer (t : Template) : list piece := scan 0 (template t).

(** [mo.group()]: the text of the whole match *)
Definition group0 (g : group) : string :=
  match g with
  | Escaped => "$$"
  | Named n => "$" +:+ n
  | Braced n => "${" +:+ n +:+ "}"
  | Invalid => "$"
  end.

(** [pattern.sub(convert, template)]: [convert] is called on the matches
    from left to right, and the first exception ends the call. *)
Fixpoint sub (convert : group → result string) (ps : list piece)
  : result string :=
  match ps with
  | [] => Return ""
  | Text c :: ps' =>
      rbind (sub convert ps') (λ r, Return (String c r))
  | Match g :: ps' =>
      rbind (convert g) (λ x,
      rbind (sub convert ps') (λ r, Return (x +:+ r)))
  end.

(** The [convert] of [Template.substitute] *)
Definition convert (mapping : gmap string pyval) (g : group) : result string :=
  match g with
  | Named k | Braced k =>
      match mapping !! k with
      | Some v => Return (str v)
      | None => Raise (KeyError k)
      end
  | Escaped => Return "$"
  | Invalid => Raise (ValueError InvalidPlaceholder)
  end.

Definition substitute (t : Template) (mapping : gmap string pyval)
  : result string :=
  sub (convert mapping) (finditer t).

(** The [convert] of [Template.safe_substitute] *)
Definition safe_convert (mapping : gmap string pyval) (g : group)
  : result string :=
  match g with
  | Named k | Braced k =>
      match mapping !! k with
      | Some v => Return (str v)
      | None => Return (group0 g)
      end
  | Escaped => Return "$"
  | Invalid => Return (group0 g)
  end.

Definition safe_substitute (t : Template) (mapping : gmap string pyval)
  : result string :=
  sub (safe_convert mapping) (finditer t).

(** ** The pattern of the path rewrite

    [file_and_line] gives [re.sub] the pattern ['^' + SAGE_LIB], so the
    library root is read as a regular expression. The part of the syntax
    modelled here: an ordinary character stands for itself, a dot for any
    character but the newline, and a backslash before a character that is
    no ASCII letter or digit makes it ordinary. A root with another
    special character, or a replacement with a backslash, is left to
    [re_sub_other] of the [World]. *)

Inductive re_atom :=
| RChar (c : ascii)
| RAny.

Definition re_special (c : ascii) : bool :=
  existsb (Ascii.eqb c) (list_ascii_of_string ".^$*+?{}[]\|()").

Definition is_alnum (c : ascii) : bool :=
  in_range "a" "z" c || in_range "A" "Z" c || in_range "0" "9" c.

Fixpoint re_parse (p : string) : option (list re_atom) :=
  match p with
  | EmptyString => Some []
  | String c r =>
      if (c =? ".")%char then cons RAny <$> re_parse r
      else if (c =? "\")%char then
        match r with
        | String d r' =>
            if is_alnum d then None else cons (RChar d) <$> re_parse r'
        | EmptyString => None
        end
      else if re_special c then None
      else cons (RChar c) <$> re_parse r
  end.

(** A match of the atoms at the head of [s]: what is left of [s]. *)
Fixpoint re_match (p : list re_atom) (s : string) : option string :=
  match p, s with
  | [], _ => Some s
  | RChar c :: p', String d r =>
      if (c =? d)%char then re_match p' r else None
  | RAny :: p', String d r =>
      if (d =? "010")%char then None else re_match p' r
  | _ :: _, EmptyString => None
  end.

Definition has_backslash (s : string) : bool :=
  existsb (Ascii.eqb "\") (list_ascii_of_string s).

(** ** The world around the module *)

Inductive PyObject :=
| Object (id : nat).

Record World := {
  (** [sage.misc.sageinspect.sage_getfile] *)
  sage_getfile : PyObject → result string;
  (** [sage.misc.sageinspect.sage_getsourcelines]: the lines and the
      number of the first one *)
  sage_getsourcelines : PyObject → result (list string * Z);
  (** [open(filename, 'r')]: the text of the file *)
  open_read : string → result string;
  (** [sage.env.SAGE_LIB] and [sage.env.SAGE_SRC] *)
  SAGE_LIB : string;
  SAGE_SRC : string;
  (** [os.environ] *)
  environ : gmap string string;
  (** [re.sub] on ['^' + root], a replacement and a string, outside the
      syntax modelled by [re_parse] *)
  re_sub_other : string → string → string → result string
}.

(** ** State and computations *)

Record State := {
  (** the module global [edit_template]; [None] by default *)
  edit_template : option Template;
  (** the commands [os.system] was called with, the last one first *)
  os_system_calls : list string
}.

Definition initial_state : State :=
  {| edit_template := None; os_system_calls := [] |}.

(** A computation takes the fuel of its loops and the state; it gives
    [None] when the fuel does not suffice, and otherwise its result or
    exception with the state it leaves. *)
Definition M (A : Type) : Type := nat → State → option (result A * State).

Definition ret {A} (a : A) : M A := λ _ st, Some (Return a, st).

Definition raise {A} (e : exception) : M A := λ _ st, Some (Raise e, st).

Definition lift {A} (r : result A) : M A := λ _ st, Some (r, st).

Definition bind {A B} (m : M A) (k : A → M B) : M B :=
  λ fuel st,
    match m fuel st with
    | None => None
    | Some (Return a, st') => k a fuel st'
    | Some (Raise e, st') => Some (Raise e, st')
    end.

#[global] Instance result_bind : MBind result := λ A B k r, rbind r k.
#[global] Instance M_bind : MBind M := λ A B k m, bind m k.

Definition get_edit_template : M (option Template) :=
  λ _ st, Some (Return (edit_template st), st).

(** [edit_template = t] *)
Definition with_template (t : Template) (st : State) : State :=
  {| edit_template := Some t; os_system_calls := os_system_calls st |}.

Definition put_edit_template (t : Template) : M unit :=
  λ _ st, Some (Return (), with_template t st).

(** The character of code 0 is in [s]. *)
Definition has_nul (s : string) : bool :=
  existsb (Ascii.eqb "000") (list_ascii_of_string s).

(** The state after a call of [os.system] on [cmd]. *)
Definition logged (cmd : string) (st : State) : State :=
  {| edit_template := edit_template st;
     os_system_calls := cmd :: os_system_calls st |}.

(** [os.system(cmd)]: the call raises [ValueError] on a command with
    the character of code 0, and otherwise hands the command to the shell
    and returns. *)
Definition os_system (cmd : string) : M unit :=
  λ _ st,
    if has_nul cmd
    then Some (Raise (ValueError EmbeddedNullByte), logged cmd st)
    else Some (Return (), logged cmd st).

(** [try: m except (ValueError, KeyError, IndexError): handler] *)
Definition caught (e : exception) : bool :=
  match e with
  | ValueError _ | KeyError _ | IndexError => true
  | OtherError _ => false
  end.

Definition try_except {A} (m handler : M A) : M A :=
  λ fuel st,
    match m fuel st with
    | Some (Raise e, st') =>
        if caught e then handler fuel st' else Some (Raise e, st')
    | r => r
    end.

(** ** The module *)

Definition template_defaults : gmap string Template :=
  list_to_map
    [ ("vi", {| template := "vi -c ${line} ${file}" |});
      ("vim", {| template := "vim -c ${line} ${file}" |});
      ("emacs", {| template := "emacs ${opts} +${line} ${file}" |});
      ("nedit-nc", {| template := "nedit-nc -line ${line} ${file}" |});
      ("nedit-client", {| template := "nedit-client -line ${line} ${file}" |});
      ("ncl", {| template := "ncl -line ${line} ${file}" |});
      ("gedit", {| template := "gedit +${line} ${file} &" |});
      ("kate", {| template := "kate -u --line +${line} ${file} &" |}) ].

(** The [while not dummy] loop of [template_fields]: [dummy] is [None]
    until a substitution succeeds, and is then its result, which ends the
    loop when it is not the empty string. *)
Fixpoint template_fields_loop (fuel : nat) (t : Template)
  (dict : gmap string pyval) : option (result (gmap string pyval)) :=
  match fuel with
  | O => None
  | S fuel' =>
      match substitute t dict with
      | Return dummy =>
          if is_empty dummy then template_fields_loop fuel' t dict
          else Some (Return dict)
      | Raise (KeyError key) =>
          template_fields_loop fuel' t (<[key := PyNone]> dict)
      | Raise e => Some (Raise e)
      end
  end.

(** [list(dict)]: the keys. They come in the order of the map, not in the
    order in which Python inserted them; the module makes a set of them. *)
Definition keys (dict : gmap string pyval) : list string :=
  (map_to_list dict).*1.

Definition template_fields (t : Template) : M (list string) :=
  λ fuel st,
    match template_fields_loop fuel t ∅ with
    | None => None
    | Some r => Some (dict ← r; Return (keys dict), st)
    end.

(** The argument of [set_edit_template]: a string or a [Template]. *)
Inductive template_arg :=
| OfStr (s : string)
| OfTemplate (t : Template).

Definition as_template (a : template_arg) : Template :=
  match a with
  | OfStr s => {| template := s |}
  | OfTemplate t => t
  end.

Definition allowed_fields (fields : gset string) : bool :=
  bool_decide (fields ⊆ list_to_set ["file"; "line"]) &&
  bool_decide ("file" ∈ fields).

Definition set_edit_template (template_string : template_arg) : M unit :=
  let template_string := as_template template_string in
  l ← template_fields template_string;
  let fields : gset string := list_to_set l in
  if negb (allowed_fields fields)
  then raise (ValueError TemplateVariables)
  else put_edit_template template_string.

Definition set_editor (editor_name opts : string) : M unit :=
  match template_defaults !! editor_name with
  | Some t =>
      s ← lift (safe_substitute t {[ "opts" := PyStr opts ]});
      set_edit_template (OfTemplate {| template := s |})
  | None => raise (ValueError EditorNameNotKnown)
  end.

(** [if editor:] on an argument that is [None] or a string *)
Definition truthy (editor : option string) : bool :=
  match editor with
  | Some s => negb (is_empty s)
  | None => false
  end.

(** [cmd[-1]] *)
Definition index_last (cmd : string) : result ascii :=
  match last_char cmd with
  | Some c => Return c
  | None => Raise IndexError
  end.

(** [bg is True], [bg is False] *)
Definition is_bool (b : bool) (bg : pyval) : bool :=
  match bg with
  | PyBool b' => Bool.eqb b b'
  | _ => false
  end.

(** The two [if]s of [edit] on [bg] and [cmd]. *)
Definition background (bg : pyval) (cmd : string) : result string :=
  cmd ← (if is_bool true bg then
           c ← index_last cmd;
           if negb (c =? "&")%char then Return (cmd +:+ "&") else Return cmd
         else Return cmd);
  if is_bool false bg then
    c ← index_last cmd;
    if (c =? "&")%char then Return (drop_end 1 cmd) else Return cmd
  else Return cmd.

Section WithWorld.

Variable w : World.

(** [re.sub('^' + root, repl, s)] *)
Definition re_sub_anchored (root repl s : string) : result string :=
  match re_parse root with
  | Some p =>
      if has_backslash repl then re_sub_other w root repl s
      else
        match re_match p s with
        | Some rest => Return (repl +:+ rest)
        | None => Return s
        end
  | None => re_sub_other w root repl s
  end.

Definition file_and_line (obj : PyObject) : result (string * Z) :=
  filename ← sage_getfile w obj;
  '(_, first) ← sage_getsourcelines w obj;
  let lineno := (first - 1)%Z in
  '(filename, lineno) ←
    (if endswith filename ".py" then
       infile ← open_read w filename;
       let '(_, infile) := readline infile in
       let '(second, _) := readline infile in
       match find second "*autogenerated*" with
       | Some _ => Return (drop_end 3 filename +:+ ".sage", (lineno - 3)%Z)
       | None => Return (filename, lineno)
       end
     else Return (filename, lineno));
  filename ← re_sub_anchored (SAGE_LIB w) (SAGE_SRC w) filename;
  Return (filename, (lineno + 1)%Z).

(** The body of the [try] of [edit] *)
Definition editor_from_environ : M unit :=
  ED ← lift (match environ w !! "EDITOR" with
             | Some v => Return v
             | None => Raise (KeyError "EDITOR")
             end);
  let EDITOR := split ED in
  base ← lift (match EDITOR with
               | b :: _ => Return b
               | [] => Raise IndexError
               end);
  let opts := join " " (tail EDITOR) in
  set_editor base opts.

(** The command that [edit] builds from the template in use. *)
Definition command (t : Template) (obj : PyObject) (bg : pyval)
  : result string :=
  '(filename, lineno) ← file_and_line obj;
  cmd ← substitute t {[ "line" := PyInt lineno; "file" := PyStr filename ]};
  background bg cmd.

Definition edit (obj : PyObject) (editor : option string) (bg : pyval)
  : M unit :=
  _ ← (if truthy editor then set_editor (default "" editor) ""
       else
         t ← get_edit_template;
         match t with
         | None =>
             try_except editor_from_environ
                        (raise (ValueError NoDefaultTemplate))
         | Some _ => ret ()
         end);
  t ← get_edit_template;
  match t with
  | None => raise (ValueError NoDefaultTemplate)
  | Some t =>
      cmd ← lift (command t obj bg);
      os_system cmd
  end.

(** ** A session: calls of the three entry points, one after the other *)

Inductive call :=
| SetEditTemplate (template_string : template_arg)
| SetEditor (editor_name opts : string)
| Edit (obj : PyObject) (editor : option string) (bg : pyval).

Definition run (c : call) : M unit :=
  match c with
  | SetEditTemplate a => set_edit_template a
  | SetEditor n o => set_editor n o
  | Edit obj editor bg => edit obj editor bg
  end.

End WithWorld.

(** A session at the prompt: the calls are made one after the other, and
    a call that raises leaves the session running. *)
Fixpoint session (w : World) (calls : list call) (fuel : nat) (st : State)
  : option State :=
  match calls with
  | [] => Some st
  | c :: calls' =>
      match run w c fuel st with
      | Some (_, st') => session w calls' fuel st'
      | None => None
      end
  end.

(** ** The notions of the specification *)

(** The name of a placeholder, [$name] or [${name}]. *)
Definition piece_name (p : piece) : option string :=
  match p with
  | Match (Named k) | Match (Braced k) => Some k
  | _ => None
  end.

Definition names (ps : list piece) : gset string :=
  list_to_set (omap piece_name ps).

(** The placeholder set of a template: the names of the placeholders that
    a parse of the template string finds. *)
Definition placeholder_set (t : Template) : gset string :=
  names (finditer t).

Definition is_invalid (p : piece) : bool :=
  match p with
  | Match Invalid => true
  | _ => false
  end.

(** A template is well formed when every delimiter starts an escape or a
    placeholder. *)
Definition well_formed (t : Template) : bool :=
  forallb (λ p, negb (is_invalid p)) (finditer t).

(** What the validator is to answer, read off the parse of the template. *)
Definition validation (t : Template) : result unit :=
  if well_formed t then
    if allowed_fields (placeholder_set t) then Return ()
    else Raise (ValueError TemplateVariables)
  else Raise (ValueError InvalidPlaceholder).

Definition after_validation (t : Template) (st : State) : State :=
  match validation t with
  | Return _ => with_template t st
  | Raise _ => st
  end.

(** No value of the mapping prints as the empty string. *)
Definition nonempty_values (d : gmap string pyval) : Prop :=
  ∀ k v, d !! k = Some v → is_empty (str v) = false.

Fixpoint no_newline (s : string) : bool :=
  match s with
  | EmptyString => true
  | String c r => negb (c =? "010")%char && no_newline r
  end.

(** [s] starts with [p], character by character. *)
Definition startswith (s p : string) : bool := String.prefix p s.

(** No character of [s] is special in a pattern. *)
Definition plain (s : string) : bool :=
  forallb (λ c, negb (re_special c)) (list_ascii_of_string s).

(** The root has no special character but dots. *)
Definition dots_only (root : string) : bool :=
  forallb (λ c, (c =? ".")%char || negb (re_special c))
          (list_ascii_of_string root).

(** [s] departs from the root at a character of the root that is no dot:
    it has another character there, or ends before. *)
Definition root_mismatch (root s : string) : Prop :=
  ∃ n c, get n root = Some c ∧ c ≠ "."%char ∧ get n s ≠ Some c.

(** The call of [set_editor] that [edit] makes, if it makes one: with the
    editor it is given, or, with no editor given and no template active,
    with the words of [EDITOR]. *)
Definition chosen_editor (w : World) (editor : option string) (st : State)
  : option (string * string) :=
  if truthy editor then Some (default "" editor, "")
  else
    match edit_template st with
    | Some _ => None
    | None =>
        match environ w !! "EDITOR" with
        | Some ED =>
            match split ED with
            | base :: rest => Some (base, join " " rest)
            | [] => None
            end
        | None => None
        end
    end.

Definition with_SAGE_LIB (root : string) (w : World) : World :=
  {| sage_getfile := sage_getfile w;
     sage_getsourcelines := sage_getsourcelines w;
     open_read := open_read w;
     SAGE_LIB := root;
     SAGE_SRC := SAGE_SRC w;
     environ := environ w;
     re_sub_other := re_sub_other w |}.

(** ** A world to run the module in

    An installation with the library under
    [/usr/lib/python3.9/site-packages]: object 0 is from the library,
    object 1 from a preparsed script, object 2 has the empty string for
    its file, object 3 is from a directory next to the library, and the
    other objects have no source. *)

Definition newline : string := String "010" EmptyString.

Definition demo_world : World := {|
  sage_getfile := λ obj,
    match obj with
    | Object 0 => Return "/usr/lib/python3.9/site-packages/sage/misc/foo.py"
    | Object 1 => Return "/home/user/script.py"
    | Object 2 => Return ""
    | Object 3 => Return "/usr/lib/python3x9/site-packages/sage/misc/foo.py"
    | _ => Raise (OtherError "TypeError")
    end;
  sage_getsourcelines := λ obj, Return ([], 10%Z);
  open_read := λ filename,
    if (filename =? "/home/user/script.py")%string
    then Return ("" +:+ newline +:+
                 "# This file was *autogenerated* from script.sage" +:+
                 newline +:+ "from sage.all import *" +:+ newline)
    else Return "";
  SAGE_LIB := "/usr/lib/python3.9/site-packages";
  SAGE_SRC := "/home/sage/src";
  environ := {[ "EDITOR" := "emacs -nw" ]};
  re_sub_other := λ _ _ s, Return s
|}.

(** ** Further notions

    The other entry point of the module, and what the further properties
    are stated with. *)

(** [IPython.core.hooks.editor(self, filename, linenum)] is outside the
    module: what is modelled is the arguments it is called with. *)
Definition edit_devel (w : World) (filename : string) (linenum : pyval)
  : result (string * pyval) :=
  filename ← re_sub_anchored w (SAGE_LIB w) (SAGE_SRC w) filename;
  Return (filename, linenum).

Definition with_environ (env : gmap string string) (w : World) : World :=
  {| sage_getfile := sage_getfile w;
     sage_getsourcelines := sage_getsourcelines w;
     open_read := open_read w;
     SAGE_LIB := SAGE_LIB w;
     SAGE_SRC := SAGE_SRC w;
     environ := env;
     re_sub_other := re_sub_other w |}.

Definition valid_template (t : Template) : Prop :=
  well_formed t = true ∧
  placeholder_set t ⊆ {["file"; "line"]} ∧ "file" ∈ placeholder_set t.

Definition template_valid (st : State) : Prop :=
  ∀ t, edit_template st = Some t → valid_template t.

Fixpoint no_delim (s : string) : bool :=
  match s with
  | EmptyString => true
  | String c r => negb (c =? "$")%char && no_delim r
  end.

Definition no_usable_editor (w : World) : Prop :=
  match environ w !! "EDITOR" with
  | None => True
  | Some ED =>
      match split ED with
      | [] => True
      | base :: _ => template_defaults !! base = None
      end
  end.

(** A world whose library root has no special character: object 0 is
    from a compiled module of the library, object 1 from a file of one
    line, object 2 from a file that is gone. *)
Definition plain_world : World := {|
  sage_getfile := λ obj,
    match obj with
    | Object 0 => Return "/opt/sage/lib/sage/symbolic/expression.pyx"
    | Object 1 => Return "/home/user/notes.py"
    | Object 2 => Return "/home/user/missing.py"
    | _ => Raise (OtherError "TypeError")
    end;
  sage_getsourcelines := λ obj, Return ([], 42%Z);
  open_read := λ filename,
    if (filename =? "/home/user/notes.py")%string
    then Return "# *autogenerated* is only on the first line"
    else Raise (OtherError "FileNotFoundError");
  SAGE_LIB := "/opt/sage/lib";
  SAGE_SRC := "/home/sage/src";
  environ := ∅;
  re_sub_other := λ _ _ s, Return s
|}.

(** * Properties *)

#[local] Arguments String.append : simpl nomatch.

(** ** Runs of the module *)

Example vi_template :
  set_editor "vi" "" 3 initial_state =
  Some (Return (),
        with_template {| template := "vi -c ${line} ${file}" |} initial_state).
Proof. reflexivity. Qed.

Example unknown_editor :
  set_editor "unknown-editor" "" 3 initial_state =
  Some (Raise (ValueError EditorNameNotKnown), initial_state).
Proof. reflexivity. Qed.

Example edit_from_environ :
  edit demo_world (Object 0) None PyNone 3 initial_state =
  Some (Return (),
        {| edit_template := Some {| template := "emacs -nw +${line} ${file}" |};
           os_system_calls :=
             ["emacs -nw +10 /home/sage/src/sage/misc/foo.py"] |}).
Proof. reflexivity. Qed.

Example edit_preparsed_script :
  file_and_line demo_world (Object 1) = Return ("/home/user/script.sage", 7%Z).
Proof. reflexivity. Qed.

Example edit_strips_marker :
  os_system_calls <$>
    (snd <$> edit demo_world (Object 0) (Some "gedit") (PyBool false) 3
                  initial_state) =
  Some ["gedit +10 /home/sage/src/sage/misc/foo.py "].
Proof. reflexivity. Qed.

Example fields_of_docstring :
  placeholder_set {| template := "Template ${one} with ${two} and ${three}" |}
  = {["one"; "two"; "three"]}.
Proof. apply set_eq. intros x. vm_compute. set_solver. Qed.

(** ** Strings *)

Lemma length_app a b :
  String.length (a +:+ b) = String.length a + String.length b.
Proof. induction a as [|c a IH]; simpl; [done|]. by rewrite IH. Qed.

Lemma is_empty_app a b : is_empty (a +:+ b) = is_empty a && is_empty b.
Proof. by destruct a. Qed.

Lemma substring_all s : substring 0 (String.length s) s = s.
Proof. induction s as [|c s IH]; simpl; [done|]. by rewrite IH. Qed.

Lemma substring_app_l a b : substring 0 (String.length a) (a +:+ b) = a.
Proof.
  induction a as [|c a IH]; simpl; [by destruct b|]. by rewrite IH.
Qed.

Lemma substring_app_r a b n :
  substring (String.length a) n (a +:+ b) = substring 0 n b.
Proof. induction a as [|c a IH]; simpl; done. Qed.

Lemma endswith_app a b : endswith (a +:+ b) b = true.
Proof.
  unfold endswith. rewrite length_app.
  replace (String.length a + String.length b - String.length b)
    with (String.length a) by lia.
  rewrite substring_app_r, substring_all, String.eqb_refl.
  rewrite andb_true_r. apply Nat.leb_le. lia.
Qed.

Lemma drop_end_app a b : drop_end (String.length b) (a +:+ b) = a.
Proof.
  unfold drop_end. rewrite length_app.
  replace (String.length a + String.length b - String.length b)
    with (String.length a) by lia.
  apply substring_app_l.
Qed.

Lemma prefix_app a b : String.prefix a (a +:+ b) = true.
Proof.
  induction a as [|c a IH]; simpl; [by destruct b|].
  destruct (ascii_dec c c); [done|congruence].
Qed.

(** [find] finds a substring that is there. *)
Lemma find_app pre m post : is_Some (find (pre +:+ m +:+ post) m).
Proof.
  unfold find. induction pre as [|c pre IH].
  - simpl. pose proof (prefix_app m post) as Hp.
    destruct (m +:+ post) as [|c s]; simpl in *.
    + destruct m; [eauto|done].
    + rewrite Hp. eauto.
  - destruct IH as [n Hn].
    change (is_Some (if String.prefix m (String c (pre +:+ m +:+ post))
                     then Some 0
                     else match index 0 m (pre +:+ m +:+ post) with
                          | Some n0 => Some (S n0)
                          | None => None
                          end)).
    rewrite Hn. destruct (String.prefix m _); eauto.
Qed.

Lemma readline_app l r :
  no_newline l = true →
  readline (l +:+ r) = (l +:+ (readline r).1, (readline r).2).
Proof.
  induction l as [|c l IH]; simpl.
  - by destruct (readline r).
  - intros [Hc Hl]%andb_true_iff. apply negb_true_iff in Hc. rewrite Hc.
    rewrite (IH Hl). done.
Qed.

(** The second line that [readline] gives has the marker that was put on
    the second line. *)
Lemma marker_on_second_line line1 pre m rest :
  no_newline line1 = true →
  no_newline pre = true →
  no_newline m = true →
  is_Some (find (readline (readline
                   (line1 +:+ String "010" (pre +:+ m +:+ rest))).2).1 m).
Proof.
  intros Hl1 Hpre Hm. rewrite (readline_app line1 _ Hl1).
  change (readline (String "010" (pre +:+ m +:+ rest))).2
    with (pre +:+ m +:+ rest).
  cbn [snd]. rewrite (readline_app pre _ Hpre), (readline_app m _ Hm).
  cbn [fst]. apply find_app.
Qed.

Lemma last_char_cons c r : is_Some (last_char (String c r)).
Proof.
  revert c. induction r as [|d r IH]; intros c; [by eexists|]. apply (IH d).
Qed.

(** [endswith] on one character looks at the last character. *)
Lemma endswith_last_char s a :
  endswith s (String a "") =
  match last_char s with
  | Some c => (c =? a)%char
  | None => false
  end.
Proof.
  unfold endswith. induction s as [|c s IH]; [done|].
  destruct s as [|d s]; [simpl; by destruct (c =? a)%char|].
  change (last_char (String c (String d s))) with (last_char (String d s)).
  rewrite <- IH. cbn [String.length].
  rewrite !Nat.sub_succ, !Nat.sub_0_r. reflexivity.
Qed.

(** ** Substitution into a template *)

Lemma names_cons p ps :
  names (p :: ps) =
  match piece_name p with
  | Some k => {[k]} ∪ names ps
  | None => names ps
  end.
Proof. unfold names. simpl. by destruct (piece_name p). Qed.

Lemma finditer_nil t : bool_decide (finditer t = []) = is_empty (template t).
Proof.
  unfold finditer. destruct (template t) as [|c r]; simpl; [done|].
  destruct (c =? "$")%char; [destruct (match_delim r)|]; done.
Qed.

Lemma well_formed_empty t :
  is_empty (template t) = true → well_formed t = true.
Proof. by destruct t as [[|c r]]. Qed.

Lemma placeholder_set_empty t :
  is_empty (template t) = true → placeholder_set t = ∅.
Proof. by destruct t as [[|c r]]. Qed.

Lemma nonempty_values_empty : nonempty_values ∅.
Proof. intros k v. by rewrite lookup_empty. Qed.

Lemma nonempty_values_insert k d :
  nonempty_values d → nonempty_values (<[k := PyNone]> d).
Proof.
  intros Hd k' v. rewrite lookup_insert. case_decide; [|apply Hd].
  by intros [= <-].
Qed.

(** The cases of [sub] after the rest of the pieces has been dealt
    with. *)
Ltac sub_rest d ps IH :=
  destruct (sub (convert d) ps) as [?|[?|?| |?]]; simpl; try done;
  try (destruct IH as (?&?&?)).

(** What a substitution does, told from the pieces alone: it raises
    [KeyError] on a name that the mapping lacks, [ValueError] on a
    delimiter that starts nothing, and returns text that is empty only
    when there are no pieces. *)
Lemma sub_convert_cases d ps :
  nonempty_values d →
  match sub (convert d) ps with
  | Return r =>
      names ps ⊆ dom d ∧ forallb (λ p, negb (is_invalid p)) ps = true ∧
      is_empty r = bool_decide (ps = [])
  | Raise (KeyError k) => k ∈ names ps ∧ k ∉ dom d
  | Raise (ValueError v) =>
      v = InvalidPlaceholder ∧ forallb (λ p, negb (is_invalid p)) ps = false
  | Raise _ => False
  end.
Proof.
  intros Hd.
  assert (Hname : ∀ k ps,
    match sub (convert d) ps with
    | Return r =>
        names ps ⊆ dom d ∧ forallb (λ p, negb (is_invalid p)) ps = true ∧
        is_empty r = bool_decide (ps = [])
    | Raise (KeyError k) => k ∈ names ps ∧ k ∉ dom d
    | Raise (ValueError v) =>
        v = InvalidPlaceholder ∧ forallb (λ p, negb (is_invalid p)) ps = false
    | Raise _ => False
    end →
    match
      rbind (match d !! k with
             | Some v => Return (str v)
             | None => Raise (KeyError k)
             end)
            (λ x, rbind (sub (convert d) ps) (λ r, Return (x +:+ r)))
    with
    | Return r =>
        {[k]} ∪ names ps ⊆ dom d ∧
        forallb (λ p, negb (is_invalid p)) ps = true ∧
        is_empty r = false
    | Raise (KeyError k') => k' ∈ {[k]} ∪ names ps ∧ k' ∉ dom d
    | Raise (ValueError v) =>
        v = InvalidPlaceholder ∧ forallb (λ p, negb (is_invalid p)) ps = false
    | Raise _ => False
    end).
  { intros k ps' IH. destruct (d !! k) as [v|] eqn:Hk; simpl.
    - sub_rest d ps' IH.
      + split_and!; [|done|].
        * apply union_subseteq. split; [|done].
          apply singleton_subseteq_l, elem_of_dom. eauto.
        * by rewrite is_empty_app, (Hd _ _ Hk).
      + set_solver.
    - split; [set_solver|]. by apply not_elem_of_dom. }
  induction ps as [|p ps IH]; simpl.
  - split; [set_solver|done].
  - rewrite names_cons. destruct p as [c|[|k|k|]]; simpl.
    + sub_rest d ps IH. done.
    + sub_rest d ps IH. done.
    + apply (Hname k ps IH).
    + apply (Hname k ps IH).
    + done.
Qed.

Lemma substitute_cases t d :
  nonempty_values d →
  match substitute t d with
  | Return r =>
      placeholder_set t ⊆ dom d ∧ well_formed t = true ∧
      is_empty r = is_empty (template t)
  | Raise (KeyError k) => k ∈ placeholder_set t ∧ k ∉ dom d
  | Raise (ValueError v) => v = InvalidPlaceholder ∧ well_formed t = false
  | Raise _ => False
  end.
Proof.
  intros Hd. rewrite <- finditer_nil. apply sub_convert_cases, Hd.
Qed.

(** ** The loop of [template_fields] *)

Section Loop.

Variable t : Template.

(** What the loop gives when it ends. *)
Lemma template_fields_loop_sound fuel :
  ∀ d r, nonempty_values d →
  template_fields_loop fuel t d = Some r →
  match r with
  | Return d' =>
      dom d' = dom d ∪ placeholder_set t ∧ well_formed t = true ∧
      is_empty (template t) = false
  | Raise e => e = ValueError InvalidPlaceholder ∧ well_formed t = false
  end.
Proof.
  induction fuel as [|fuel IH]; intros d r Hd; simpl; [done|].
  pose proof (substitute_cases t d Hd) as Hs.
  destruct (substitute t d) as [dummy|[v|k| |n]]; try done.
  - destruct Hs as (Hsub & Hwf & Hemp).
    destruct (is_empty dummy) eqn:Hdummy.
    + intros Hl. apply (IH _ _ Hd Hl).
    + intros [= <-]. split_and!; [set_solver|done|congruence].
  - destruct Hs as [-> Hwf]. by intros [= <-].
  - destruct Hs as [Hin Hout]. intros Hl.
    apply IH in Hl; [|by apply nonempty_values_insert].
    destruct r as [d'|e]; [|done].
    destruct Hl as (Hdom & ? & ?). split_and!; [|done..].
    rewrite Hdom, dom_insert_L. set_solver.
Qed.

(** The loop ends on a template that is not empty: every turn that does
    not end it adds a placeholder of the template to the dictionary. *)
Lemma template_fields_loop_total fuel :
  ∀ d, nonempty_values d →
  is_empty (template t) = false →
  size (placeholder_set t ∖ dom d) < fuel →
  is_Some (template_fields_loop fuel t d).
Proof.
  induction fuel as [|fuel IH]; intros d Hd Hne Hsz; simpl; [lia|].
  pose proof (substitute_cases t d Hd) as Hs.
  destruct (substitute t d) as [dummy|[v|k| |n]]; try done.
  - destruct Hs as (_ & _ & Hemp). rewrite Hemp, Hne. done.
  - destruct Hs as [Hin Hout].
    apply IH; [by apply nonempty_values_insert|done|].
    eapply Nat.lt_le_trans; [|apply PeanoNat.lt_n_Sm_le, Hsz].
    apply subset_size. rewrite dom_insert_L. set_solver.
Qed.

End Loop.

(** The loop does not end on the empty template: the substitution
    succeeds with the empty string, which [while not dummy] takes for no
    result yet. *)
Lemma template_fields_loop_empty fuel :
  ∀ d, template_fields_loop fuel {| template := "" |} d = None.
Proof. induction fuel as [|fuel IH]; intros d; simpl; [done|apply IH]. Qed.

(** ** [set_edit_template] *)

Lemma keys_dom (d : gmap string pyval) : list_to_set (keys d) = dom d.
Proof. symmetry. apply leibniz_equiv, dom_alt. Qed.

Lemma allowed_fields_spec (X : gset string) :
  allowed_fields X = true ↔ X ⊆ {["file"; "line"]} ∧ "file" ∈ X.
Proof.
  unfold allowed_fields. rewrite andb_true_iff, !bool_decide_eq_true.
  set_solver.
Qed.

Lemma validation_allowed t :
  validation t = Return () →
  placeholder_set t ⊆ {["file"; "line"]} ∧ "file" ∈ placeholder_set t.
Proof.
  unfold validation. intros Hv. apply allowed_fields_spec.
  destruct (well_formed t); [|done]. by destruct (allowed_fields _).
Qed.

Lemma opts_not_allowed (X : gset string) :
  X ⊆ {["file"; "line"]} → "opts" ∉ X.
Proof.
  intros HX Ho. apply HX in Ho.
  rewrite elem_of_union, !elem_of_singleton in Ho. by destruct Ho.
Qed.

Lemma set_edit_template_loop a fuel st :
  set_edit_template a fuel st =
  match template_fields_loop fuel (as_template a) ∅ with
  | None => None
  | Some (Raise e) => Some (Raise e, st)
  | Some (Return d) =>
      if allowed_fields (dom d)
      then Some (Return (), with_template (as_template a) st)
      else Some (Raise (ValueError TemplateVariables), st)
  end.
Proof.
  unfold set_edit_template, template_fields, mbind, M_bind, bind.
  destruct (template_fields_loop fuel (as_template a) ∅) as [[d|e]|]; simpl;
    try reflexivity.
  rewrite keys_dom. destruct (allowed_fields (dom d)); reflexivity.
Qed.

(** Whatever [set_edit_template] ends with is what the validation says. *)
Lemma set_edit_template_sound a fuel st r st' :
  set_edit_template a fuel st = Some (r, st') →
  is_empty (template (as_template a)) = false ∧
  r = validation (as_template a) ∧ st' = after_validation (as_template a) st.
Proof.
  rewrite set_edit_template_loop. unfold after_validation, validation.
  destruct (template_fields_loop _ _ _) as [r0|] eqn:Hl; [|done].
  apply template_fields_loop_sound in Hl; [|apply nonempty_values_empty].
  destruct r0 as [d|e].
  - destruct Hl as (Hdom & -> & Hne).
    rewrite dom_empty_L, (left_id_L ∅ (∪)) in Hdom.
    rewrite Hdom. destruct (allowed_fields _); intros [= <- <-]; done.
  - destruct Hl as [-> Hwf]. rewrite Hwf. intros [= <- <-].
    split; [|done]. destruct (is_empty _) eqn:He; [|done].
    apply well_formed_empty in He. congruence.
Qed.

(** On a template that is not empty, [set_edit_template] ends as soon as
    the fuel exceeds the number of placeholders. *)
Lemma set_edit_template_total a fuel st :
  is_empty (template (as_template a)) = false →
  size (placeholder_set (as_template a)) < fuel →
  set_edit_template a fuel st =
  Some (validation (as_template a), after_validation (as_template a) st).
Proof.
  intros Hne Hsz.
  destruct (template_fields_loop_total (as_template a) fuel ∅) as [r0 Hl];
    [apply nonempty_values_empty|done| |].
  { by rewrite dom_empty_L, difference_empty_L. }
  destruct (set_edit_template a fuel st) as [[r st']|] eqn:Hs.
  - apply set_edit_template_sound in Hs as (_ & -> & ->). done.
  - rewrite set_edit_template_loop, Hl in Hs.
    destruct r0; [destruct (allowed_fields _)|]; done.
Qed.

Lemma set_edit_template_empty a fuel st :
  is_empty (template (as_template a)) = true →
  set_edit_template a fuel st = None.
Proof.
  intros He. rewrite set_edit_template_loop.
  destruct (as_template a) as [s]. simpl in He. destruct s; [|done].
  by rewrite template_fields_loop_empty.
Qed.

Lemma set_edit_template_cases a fuel st r st' :
  set_edit_template a fuel st = Some (r, st') →
  match r with
  | Return _ => st' = with_template (as_template a) st
  | Raise _ => st' = st
  end.
Proof.
  intros Hs. apply set_edit_template_sound in Hs as (_ & -> & ->).
  unfold after_validation. by destruct (validation _).
Qed.

(** C1. The claim is that [set_edit_template] on the empty template string
    ends and raises the error of the validator. The code does not end
    there: with any fuel, from any state, the call has no outcome. *)
Theorem set_edit_template_empty_diverges :
  ∀ fuel st, set_edit_template (OfStr "") fuel st = None.
Proof. intros fuel st. by apply set_edit_template_empty. Qed.

(** C2, as stated, fails. The empty template has no [file] placeholder
    and [set_edit_template] never raises on it; the template made of one
    delimiter has no [file] placeholder either and the error raised on it
    is the one of [Template.substitute], not the one of the validator. *)
Lemma set_edit_template_rejection_fails :
  (("file" ∉ placeholder_set {| template := "" |}) ∧
   ∀ fuel, set_edit_template (OfStr "") fuel initial_state = None) ∧
  (("file" ∉ placeholder_set {| template := "$" |}) ∧
   set_edit_template (OfStr "$") 1 initial_state =
   Some (Raise (ValueError InvalidPlaceholder), initial_state)).
Proof.
  split; split.
  - vm_compute. set_solver.
  - intros fuel. by apply set_edit_template_empty.
  - vm_compute. set_solver.
  - reflexivity.
Qed.

(** C2, amended. When [set_edit_template] succeeds on a template, the
    placeholder set of the template is within [file] and [line] and has
    [file]. When the template is not empty and its placeholder set is not
    within [file] and [line] or lacks [file], [set_edit_template] ends,
    leaves the state as it was and raises a [ValueError]: the one of the
    validator when the template is well formed, and the one of
    [Template.substitute] for an invalid placeholder otherwise. *)
Theorem set_edit_template_validates (a : template_arg) :
  let t := as_template a in
  (∀ fuel st st',
     set_edit_template a fuel st = Some (Return (), st') →
     placeholder_set t ⊆ {["file"; "line"]} ∧ "file" ∈ placeholder_set t) ∧
  (is_empty (template t) = false →
   ¬ (placeholder_set t ⊆ {["file"; "line"]} ∧ "file" ∈ placeholder_set t) →
   ∀ fuel st, size (placeholder_set t) < fuel →
     set_edit_template a fuel st =
     Some (Raise (ValueError (if well_formed t then TemplateVariables
                              else InvalidPlaceholder)), st)).
Proof.
  intros t. split.
  - intros fuel st st' Hs. apply set_edit_template_sound in Hs as (_ & Hv & _).
    by apply validation_allowed.
  - intros Hne Hbad fuel st Hsz.
    rewrite set_edit_template_total by done. fold t.
    rewrite <- allowed_fields_spec in Hbad.
    unfold after_validation, validation.
    destruct (well_formed t); [|done].
    by destruct (allowed_fields _).
Qed.

Lemma set_edit_template_validates_witness :
  (placeholder_set {| template := "vi -c ${line} ${file}" |} ⊆
     {["file"; "line"]} ∧
   "file" ∈ placeholder_set {| template := "vi -c ${line} ${file}" |}) ∧
  set_edit_template (OfStr "vi ${line}") 2 initial_state =
  Some (Raise (ValueError TemplateVariables), initial_state).
Proof.
  split.
  - apply (proj1 (set_edit_template_validates (OfStr "vi -c ${line} ${file}"))
             3 initial_state
             (with_template {| template := "vi -c ${line} ${file}" |}
                            initial_state)).
    reflexivity.
  - apply (proj2 (set_edit_template_validates (OfStr "vi ${line}"))).
    + reflexivity.
    + apply (bool_decide_unpack _). vm_compute. exact I.
    + vm_compute. lia.
Defined.

(** C7. Round trip: when [set_edit_template] succeeds on a template
    string, the active template can be read back, and setting the string
    read back succeeds as well and leaves the same template active. *)
Theorem set_edit_template_round_trip s fuel st st' :
  set_edit_template (OfStr s) fuel st = Some (Return (), st') →
  ∃ t, edit_template st' = Some t ∧
  ∃ st'', set_edit_template (OfStr (template t)) fuel st' =
          Some (Return (), st'') ∧
          edit_template st'' = Some t.
Proof.
  intros Hs.
  destruct (set_edit_template_sound _ _ _ _ _ Hs) as (_ & Hv & Hst).
  subst st'. simpl in *. unfold after_validation. rewrite <- Hv. simpl.
  eexists; split; [reflexivity|]. simpl.
  rewrite set_edit_template_loop in Hs |- *. simpl in *.
  destruct (template_fields_loop _ _ _) as [[d|e]|]; [|done..].
  destruct (allowed_fields _); [|done].
  eexists; split; reflexivity.
Qed.

Lemma set_edit_template_round_trip_witness :
  ∃ t, edit_template
         (with_template {| template := "echo EDIT ${file}:${line}" |}
                        initial_state) = Some t ∧
  ∃ st'', set_edit_template (OfStr (template t)) 3
            (with_template {| template := "echo EDIT ${file}:${line}" |}
                           initial_state) = Some (Return (), st'') ∧
          edit_template st'' = Some t.
Proof.
  apply (set_edit_template_round_trip "echo EDIT ${file}:${line}" 3
           initial_state).
  reflexivity.
Defined.

(** ** [set_editor] *)

Lemma set_editor_cases editor_name opts fuel st r st' :
  set_editor editor_name opts fuel st = Some (r, st') →
  match r with
  | Return _ => ∃ t, st' = with_template t st ∧ validation t = Return ()
  | Raise _ => st' = st
  end.
Proof.
  unfold set_editor. destruct (template_defaults !! editor_name) as [t0|].
  - unfold mbind, M_bind, bind, lift.
    destruct (safe_substitute t0 _) as [s|e].
    + intros Hs. apply set_edit_template_sound in Hs as (_ & -> & ->).
      unfold after_validation. simpl.
      destruct (validation _) as [[]|] eqn:Hv; [|done]. eauto.
    + by intros [= <- <-].
  - by intros [= <- <-].
Qed.

(** C3, as stated, fails: the template of the defaults table for emacs,
    which has [opts] next to [line] and [file], is refused by
    [set_edit_template], and no fuel makes the call succeed. *)
Lemma set_edit_template_refuses_opts :
  set_edit_template (OfStr "emacs ${opts} +${line} ${file}") 4 initial_state =
  Some (Raise (ValueError TemplateVariables), initial_state) ∧
  ∀ fuel st',
    set_edit_template (OfStr "emacs ${opts} +${line} ${file}") fuel
                      initial_state ≠ Some (Return (), st').
Proof.
  split; [reflexivity|].
  intros fuel st' Hs. apply set_edit_template_sound in Hs as (_ & Hv & _).
  vm_compute in Hv. discriminate.
Qed.

(** C3, amended. A template that has the [opts] placeholder is never
    installed by [set_edit_template]: the call ends with a [ValueError]
    and leaves the state as it was. [opts] is for the defaults table
    alone: [set_editor] fills it in before it validates, so the template
    that a successful [set_editor] leaves active has no [opts]. *)
Theorem opts_placeholder_rejected :
  (∀ a, "opts" ∈ placeholder_set (as_template a) →
     (∀ fuel st st', set_edit_template a fuel st ≠ Some (Return (), st')) ∧
     (∀ fuel st, size (placeholder_set (as_template a)) < fuel →
        ∃ msg, set_edit_template a fuel st =
               Some (Raise (ValueError msg), st))) ∧
  (∀ editor_name opts fuel st st',
     set_editor editor_name opts fuel st = Some (Return (), st') →
     ∃ t, edit_template st' = Some t ∧ "opts" ∉ placeholder_set t).
Proof.
  split.
  - intros a Hopts. split.
    + intros fuel st st' Hs.
      apply set_edit_template_sound in Hs as (_ & Hv & _).
      symmetry in Hv. apply validation_allowed in Hv as [Hv _].
      by apply opts_not_allowed in Hv.
    + intros fuel st Hsz. rewrite set_edit_template_total; [|..|done].
      * unfold after_validation.
        destruct (validation _) as [[]|e] eqn:Hv.
        { apply validation_allowed in Hv as [Hv _].
          by apply opts_not_allowed in Hv. }
        revert Hv. unfold validation.
        destruct (well_formed _); [destruct (allowed_fields _)|];
          intros [= <-]; eauto.
      * destruct (is_empty _) eqn:He; [|done].
        apply placeholder_set_empty in He. set_solver.
  - intros n o fuel st st' Hs. apply set_editor_cases in Hs as (t & -> & Hv).
    exists t. split; [done|]. apply validation_allowed in Hv as [Hv _].
    by apply opts_not_allowed.
Qed.

Lemma opts_placeholder_rejected_witness :
  (∀ fuel st st',
     set_edit_template (OfStr "${file} ${opts}") fuel st ≠
     Some (Return (), st')) ∧
  (∀ fuel st,
     size (placeholder_set {| template := "${file} ${opts}" |}) < fuel →
     ∃ msg, set_edit_template (OfStr "${file} ${opts}") fuel st =
            Some (Raise (ValueError msg), st)).
Proof.
  apply (proj1 opts_placeholder_rejected (OfStr "${file} ${opts}")).
  apply (bool_decide_unpack _). vm_compute. exact I.
Defined.

(** ** [edit] and the active template *)

Lemma edit_cases w obj editor bg fuel st r st' :
  edit w obj editor bg fuel st = Some (r, st') →
  edit_template st' = edit_template st ∨
  ∃ editor_name opts st1,
    set_editor editor_name opts fuel st = Some (Return (), st1) ∧
    edit_template st' = edit_template st1.
Proof.
  assert (Htail : ∀ st1 : State,
    (t ← get_edit_template;
     match t with
     | None => raise (ValueError NoDefaultTemplate)
     | Some t => cmd ← lift (command w t obj bg); os_system cmd
     end) fuel st1 = Some (r, st') →
    edit_template st' = edit_template st1).
  { intros st1. unfold mbind, M_bind, bind, get_edit_template, lift, raise,
      os_system.
    destruct (edit_template st1) as [t|] eqn:Ht; [|by intros [= <- <-]].
    destruct (command w t obj bg) as [cmd|e]; [destruct (has_nul cmd)|];
      by intros [= <- <-]. }
  unfold edit. unfold mbind at 1, M_bind at 1, bind at 1.
  destruct (truthy editor).
  - destruct (set_editor _ _ fuel st) as [[[[]|e] st1]|] eqn:Hse; [| |done].
    + intros Ht%Htail. right. eauto.
    + intros [= <- <-]. left. by apply set_editor_cases in Hse as ->.
  - unfold mbind at 1, M_bind at 1, bind at 1, get_edit_template at 1.
    destruct (edit_template st) as [t|] eqn:Hst.
    + unfold ret. intros Ht%Htail. left. congruence.
    + unfold try_except, editor_from_environ.
      unfold mbind at 1, M_bind at 1, bind at 1, lift at 1.
      destruct (environ w !! "EDITOR") as [ED|];
        [|intros [= <- <-]; left; congruence].
      unfold mbind at 1, M_bind at 1, bind at 1, lift at 1.
      destruct (split ED) as [|base rest];
        [intros [= <- <-]; left; congruence|].
      destruct (set_editor base _ fuel st) as [[[[]|e] st1]|] eqn:Hse;
        [| |done].
      * intros Ht%Htail. right. eauto.
      * apply set_editor_cases in Hse as ->.
        destruct (caught e); intros [= <- <-]; left; congruence.
Qed.

Lemma run_keeps_template w c fuel st r st' :
  run w c fuel st = Some (r, st') →
  is_Some (edit_template st) → is_Some (edit_template st').
Proof.
  destruct c as [a|n o|obj editor bg]; simpl; intros Hrun Hset.
  - apply set_edit_template_cases in Hrun.
    destruct r; subst; [by eexists|done].
  - apply set_editor_cases in Hrun.
    destruct r; [destruct Hrun as (t & -> & _); by eexists|by subst].
  - apply edit_cases in Hrun as [->|(n & o & st1 & Hse & ->)]; [done|].
    apply set_editor_cases in Hse as (t & -> & _). by eexists.
Qed.

(** C8, as stated, fails on its last part: a call of [edit] that fails can
    change the active template. With [echo EDIT ${file}:${line}] active,
    [edit] with the editor [vi] on an object without source raises, and
    the template of [vi] is active afterwards. *)
Lemma failing_edit_replaces_template :
  let st :=
    with_template {| template := "echo EDIT ${file}:${line}" |} initial_state
  in
  edit demo_world (Object 4) (Some "vi") PyNone 3 st =
  Some (Raise (OtherError "TypeError"),
        with_template {| template := "vi -c ${line} ${file}" |} st) ∧
  edit_template (with_template {| template := "vi -c ${line} ${file}" |} st)
  ≠ edit_template st.
Proof. split; [reflexivity|discriminate]. Qed.

(** What a call of [set_editor] leaves: on success the template of the
    table for the editor with the options filled in, and otherwise the
    state as it was. *)
Lemma set_editor_installed editor_name opts fuel st r st' :
  set_editor editor_name opts fuel st = Some (r, st') →
  match r with
  | Return _ =>
      ∃ t0 s, template_defaults !! editor_name = Some t0 ∧
              safe_substitute t0 {[ "opts" := PyStr opts ]} = Return s ∧
              st' = with_template {| template := s |} st
  | Raise _ => st' = st
  end.
Proof.
  intros Hse. pose proof (set_editor_cases _ _ _ _ _ _ Hse) as Hcases.
  destruct r as [[]|e]; [|done]. revert Hse. unfold set_editor.
  destruct (template_defaults !! editor_name) as [t0|]; [|done].
  unfold mbind, M_bind, bind, lift.
  destruct (safe_substitute t0 _) as [s|e] eqn:Hsub; [|done].
  intros Hs. apply set_edit_template_cases in Hs. simpl in Hs.
  by exists t0, s.
Qed.

(** The template after a call of [edit] is the one after the call of
    [set_editor] that [edit] makes, or the one before when it makes
    none. *)
Lemma edit_choice w obj editor bg fuel st r st' :
  edit w obj editor bg fuel st = Some (r, st') →
  match chosen_editor w editor st with
  | Some (editor_name, opts) =>
      ∃ r1 st1, set_editor editor_name opts fuel st = Some (r1, st1) ∧
                edit_template st' = edit_template st1
  | None => edit_template st' = edit_template st
  end.
Proof.
  assert (Htail : ∀ st1 : State,
    (t ← get_edit_template;
     match t with
     | None => raise (ValueError NoDefaultTemplate)
     | Some t => cmd ← lift (command w t obj bg); os_system cmd
     end) fuel st1 = Some (r, st') →
    edit_template st' = edit_template st1).
  { intros st1. unfold mbind, M_bind, bind, get_edit_template, lift, raise,
      os_system.
    destruct (edit_template st1) as [t|] eqn:Ht; [|by intros [= <- <-]].
    destruct (command w t obj bg) as [cmd|e]; [destruct (has_nul cmd)|];
      by intros [= <- <-]. }
  unfold edit, chosen_editor. unfold mbind at 1, M_bind at 1, bind at 1.
  destruct (truthy editor).
  - destruct (set_editor _ _ fuel st) as [[[[]|e] st1]|] eqn:Hse; [| |done].
    + intros Ht%Htail. eauto.
    + intros [= <- <-]. eauto.
  - unfold mbind at 1, M_bind at 1, bind at 1, get_edit_template at 1.
    destruct (edit_template st) as [t|] eqn:Hst.
    + unfold ret. intros Ht%Htail. congruence.
    + unfold try_except, editor_from_environ.
      unfold mbind at 1, M_bind at 1, bind at 1, lift at 1.
      destruct (environ w !! "EDITOR") as [ED|];
        [|intros [= <- <-]; congruence].
      unfold mbind at 1, M_bind at 1, bind at 1, lift at 1.
      destruct (split ED) as [|base rest];
        [intros [= <- <-]; congruence|].
      cbn [tail].
      destruct (set_editor base _ fuel st) as [[[[]|e] st1]|] eqn:Hse;
        [| |done].
      * intros Ht%Htail. eauto.
      * destruct (caught e); intros [= <- <-]; eauto.
Qed.

(** C8, amended. The active template, once set, is set after every
    sequence of calls of [set_edit_template], [set_editor] and [edit]. A
    call of [set_edit_template] that succeeds makes its argument the active
    template, and one that raises leaves the active template as it was. A
    call of [set_editor] that succeeds makes active the template of the
    defaults table for its editor with its options filled in, and one that
    raises leaves the active template as it was. A call of [edit] makes
    one call of [set_editor] at most: with the editor it is given, or,
    with no editor given and no template active, with the first word of
    [EDITOR] for the editor and its other words for the options; whatever
    [edit] returns or raises afterwards, the active template is the one
    which that call of [set_editor] leaves, and the one from before when
    [edit] makes no such call. So an [edit] with an editor of the table
    that fails in the source lookup raises with the template of that
    editor active. The template goes from unset to set by a successful
    [set_edit_template] or [set_editor] only, called directly or by
    [edit]. *)
Theorem active_template_transitions w :
  (∀ calls fuel st st',
     session w calls fuel st = Some st' →
     is_Some (edit_template st) → is_Some (edit_template st')) ∧
  (∀ a fuel st r st',
     set_edit_template a fuel st = Some (r, st') →
     edit_template st' =
     match r with
     | Return _ => Some (as_template a)
     | Raise _ => edit_template st
     end) ∧
  (∀ editor_name opts fuel st r st',
     set_editor editor_name opts fuel st = Some (r, st') →
     match r with
     | Return _ =>
         ∃ t0 s, template_defaults !! editor_name = Some t0 ∧
                 safe_substitute t0 {[ "opts" := PyStr opts ]} = Return s ∧
                 edit_template st' = Some {| template := s |}
     | Raise _ => edit_template st' = edit_template st
     end) ∧
  (∀ obj editor bg fuel st r st',
     edit w obj editor bg fuel st = Some (r, st') →
     match chosen_editor w editor st with
     | Some (editor_name, opts) =>
         ∃ r1 st1, set_editor editor_name opts fuel st = Some (r1, st1) ∧
                   edit_template st' = edit_template st1
     | None => edit_template st' = edit_template st
     end) ∧
  (∀ obj editor_name bg fuel st st1 e,
     is_empty editor_name = false →
     set_editor editor_name "" fuel st = Some (Return (), st1) →
     file_and_line w obj = Raise e →
     edit w obj (Some editor_name) bg fuel st = Some (Raise e, st1)) ∧
  (∀ c fuel st r st',
     run w c fuel st = Some (r, st') →
     edit_template st = None →
     is_Some (edit_template st') →
     match c with
     | SetEditTemplate _ | SetEditor _ _ => r = Return ()
     | Edit obj editor bg =>
         ∃ editor_name opts st1,
           chosen_editor w editor st = Some (editor_name, opts) ∧
           set_editor editor_name opts fuel st = Some (Return (), st1) ∧
           edit_template st' = edit_template st1
     end).
Proof.
  split_and!.
  - induction calls as [|c calls IH]; simpl; intros fuel st st'.
    + by intros [= <-].
    + destruct (run w c fuel st) as [[r st1]|] eqn:Hrun; [|done].
      intros Hs Hset. apply (IH _ _ _ Hs). by eapply run_keeps_template.
  - intros a fuel st r st' Hs. apply set_edit_template_cases in Hs.
    by destruct r; subst.
  - intros n o fuel st r st' Hs. apply set_editor_installed in Hs.
    destruct r; [|by subst].
    destruct Hs as (t0 & s & Hdef & Hsub & ->). eauto.
  - intros obj editor bg fuel st r st'. apply edit_choice.
  - intros obj n bg fuel st st1 e Hne Hse Hfl. unfold edit. simpl.
    rewrite Hne. simpl. unfold mbind at 1, M_bind at 1, bind at 1.
    rewrite Hse.
    apply set_editor_cases in Hse as (t & -> & _).
    unfold mbind, M_bind, bind, get_edit_template, lift. simpl.
    unfold command. by rewrite Hfl.
  - intros c fuel st r st' Hrun Hunset Hset.
    destruct c as [a|n o|obj editor bg]; simpl in Hrun.
    + apply set_edit_template_cases in Hrun.
      destruct r as [[]|e]; [done|]. subst st'. rewrite Hunset in Hset.
      by destruct Hset.
    + apply set_editor_cases in Hrun.
      destruct r as [[]|e]; [done|]. subst st'. rewrite Hunset in Hset.
      by destruct Hset.
    + apply edit_choice in Hrun.
      destruct (chosen_editor w editor st) as [[n o]|].
      * destruct Hrun as (r1 & st1 & Hse & Heq). exists n, o, st1.
        split_and!; [done| |done].
        pose proof (set_editor_cases _ _ _ _ _ _ Hse) as Hcases.
        destruct r1 as [[]|e]; [done|]. subst st1.
        rewrite Heq, Hunset in Hset. by destruct Hset.
      * rewrite Hrun, Hunset in Hset. by destruct Hset.
Qed.

Lemma active_template_transitions_witness :
  is_Some (edit_template
             {| edit_template := Some {| template := "vi -c ${line} ${file}" |};
                os_system_calls :=
                  ["vi -c 10 /home/sage/src/sage/misc/foo.py&"] |}) ∧
  edit demo_world (Object 7) (Some "kate") (PyBool false) 3 initial_state =
  Some (Raise (OtherError "TypeError"),
        with_template {| template := "kate -u --line +${line} ${file} &" |}
                      initial_state).
Proof.
  split.
  - apply (proj1 (active_template_transitions demo_world)
             [Edit (Object 4) (Some "joe") PyNone;
              SetEditTemplate (OfStr "+${line}");
              Edit (Object 0) None (PyBool true)]
             3
             (with_template {| template := "vi -c ${line} ${file}" |}
                            initial_state)).
    + reflexivity.
    + simpl. by eexists.
  - apply (proj1 (proj2 (proj2 (proj2 (proj2
             (active_template_transitions demo_world))))));
      reflexivity.
Defined.

(** ** [file_and_line] *)

(** For an object whose file ends in [.py] and has the marker
    [*autogenerated*] on its second line, [file_and_line] takes the file
    name with [.py] replaced by [.sage], gives it to the path rewrite, and
    returns what comes of it with the line number: the zero-based line
    [first - 1] of the object, minus 3, plus 1. *)
Lemma file_and_line_autogenerated w obj stem lines first line1 pre rest :
  sage_getfile w obj = Return (stem +:+ ".py") →
  sage_getsourcelines w obj = Return (lines, first) →
  open_read w (stem +:+ ".py") =
    Return (line1 +:+ String "010" (pre +:+ "*autogenerated*" +:+ rest)) →
  no_newline line1 = true →
  no_newline pre = true →
  file_and_line w obj =
    (filename ← re_sub_anchored w (SAGE_LIB w) (SAGE_SRC w) (stem +:+ ".sage");
     Return (filename, (first - 1 - 3 + 1)%Z)).
Proof.
  intros Hfile Hlines Hopen Hl1 Hpre. unfold file_and_line.
  rewrite Hfile, Hlines. cbn [mbind result_bind rbind].
  rewrite (endswith_app stem ".py"), Hopen. cbn [mbind result_bind rbind].
  destruct (marker_on_second_line line1 pre "*autogenerated*" rest Hl1 Hpre
              eq_refl) as [n Hn].
  destruct (readline (line1 +:+ _)) as [l1 r1]. cbn [snd] in Hn.
  destruct (readline r1) as [l2 r2]. cbn [fst] in Hn. rewrite Hn.
  cbn [mbind result_bind rbind].
  rewrite (drop_end_app stem ".py" : drop_end 3 _ = _). reflexivity.
Qed.

Lemma re_special_dot c : re_special c = false → (c =? ".")%char = false.
Proof.
  intros Hc. destruct (Ascii.eqb_spec c "."); [|done]. by subst c.
Qed.

Lemma re_special_backslash c : re_special c = false → (c =? "\")%char = false.
Proof.
  intros Hc. destruct (Ascii.eqb_spec c "\"); [|done]. by subst c.
Qed.

(** A root without special characters is read as itself. *)
Lemma re_parse_plain root :
  plain root = true →
  ∃ p, re_parse root = Some p ∧
       (∀ rest, re_match p (root +:+ rest) = Some rest) ∧
       (∀ s, startswith s root = false → re_match p s = None).
Proof.
  unfold plain, startswith. induction root as [|c root IH]; simpl.
  - intros _. exists []. split_and!; [done|done|]. intros s. by destruct s.
  - intros [Hc Hroot]%andb_true_iff. apply negb_true_iff in Hc.
    destruct (IH Hroot) as (p & Hp & Hyes & Hno).
    rewrite (re_special_dot _ Hc), (re_special_backslash _ Hc), Hc, Hp.
    exists (RChar c :: p). split_and!; [done|..].
    + intros rest. simpl. by rewrite Ascii.eqb_refl.
    + intros [|d s]; simpl; [done|].
      destruct (ascii_dec c d) as [->|Hne].
      * rewrite Ascii.eqb_refl. apply Hno.
      * intros _. by apply Ascii.eqb_neq in Hne as ->.
Qed.

(** With a library root without special characters and a development root
    without backslash, the path rewrite replaces the root at the head of a
    file name and keeps the rest, and leaves a file name that does not
    start with the root as it is. *)
Lemma re_sub_anchored_plain w root repl :
  plain root = true →
  has_backslash repl = false →
  (∀ rest,
     re_sub_anchored w root repl (root +:+ rest) = Return (repl +:+ rest)) ∧
  (∀ s, startswith s root = false → re_sub_anchored w root repl s = Return s).
Proof.
  intros Hroot Hrepl.
  destruct (re_parse_plain root Hroot) as (p & Hp & Hyes & Hno).
  unfold re_sub_anchored. rewrite Hp, Hrepl. split.
  - intros rest. by rewrite Hyes.
  - intros s Hs. by rewrite (Hno s Hs).
Qed.

(** A root whose only special characters are dots matches itself at the
    head of a string, and does not match a string that departs from it at
    a character that is no dot. *)
Lemma re_parse_dots_only root :
  dots_only root = true →
  ∃ p, re_parse root = Some p ∧
       (∀ rest, re_match p (root +:+ rest) = Some rest) ∧
       (∀ s, root_mismatch root s → re_match p s = None).
Proof.
  unfold dots_only. induction root as [|c root IH]; simpl.
  - intros _. exists []. split_and!; [done|done|].
    intros s (n & c & Hget & _). by destruct n.
  - intros [Hc Hroot]%andb_true_iff.
    destruct (IH Hroot) as (p & Hp & Hyes & Hno).
    assert (Htail : ∀ d r,
      root_mismatch (String c root) (String d r) →
      c = d ∨ c = "."%char → re_match p r = None).
    { intros d r (n & c' & Hget & Hdot & Hs) Hcd. apply Hno.
      destruct n as [|n]; simpl in *.
      - injection Hget as <-. destruct Hcd as [<-|]; done.
      - by exists n, c'. }
    destruct (Ascii.eqb_spec c ".") as [->|Hdot].
    + rewrite Hp. exists (RAny :: p). split_and!; [done|..].
      * intros rest. simpl. apply Hyes.
      * intros [|d r] Hs; simpl; [done|].
        destruct (d =? "010")%char; [done|]. apply (Htail d r Hs). by right.
    + simpl in Hc. apply negb_true_iff in Hc.
      rewrite (re_special_backslash _ Hc), Hc, Hp.
      exists (RChar c :: p). split_and!; [done|..].
      * intros rest. simpl. by rewrite Ascii.eqb_refl.
      * intros [|d r] Hs; simpl; [done|].
        destruct (Ascii.eqb_spec c d) as [->|Hne]; [|done].
        apply (Htail d r Hs). by left.
Qed.

(** C4, as stated, fails: the path rewrite comes after the change of the
    extension and can take the extension away. With the library root
    [/home/user/script.sage], the preparsed script [/home/user/script.py]
    is returned as [/home/sage/src], which does not end in [.sage]. *)
Lemma file_and_line_extension_lost :
  file_and_line (with_SAGE_LIB "/home/user/script.sage" demo_world) (Object 1)
  = Return ("/home/sage/src", 7%Z) ∧
  endswith "/home/sage/src" ".sage" = false.
Proof. split; reflexivity. Qed.

(** C4, amended. Let the file of an object end in [.py] and have the
    marker [*autogenerated*] on its second line, let the library root have
    no special character but dots and the development root no backslash.
    When the file name without [.py] starts with the library root,
    [file_and_line] returns the development root, the rest of that name
    and [.sage]; when the file name with [.sage] for [.py] departs from the
    library root at a character of the root that is no dot, it returns
    that name. In both cases the line number returned is the zero-based
    line [first - 1] of the object, minus 3, plus 1. *)
Theorem file_and_line_autogenerated_sage
  w obj stem lines first line1 pre rest :
  sage_getfile w obj = Return (stem +:+ ".py") →
  sage_getsourcelines w obj = Return (lines, first) →
  open_read w (stem +:+ ".py") =
    Return (line1 +:+ String "010" (pre +:+ "*autogenerated*" +:+ rest)) →
  no_newline line1 = true →
  no_newline pre = true →
  dots_only (SAGE_LIB w) = true →
  has_backslash (SAGE_SRC w) = false →
  (∀ tail, stem = SAGE_LIB w +:+ tail →
     file_and_line w obj =
     Return (SAGE_SRC w +:+ tail +:+ ".sage", (first - 1 - 3 + 1)%Z)) ∧
  (root_mismatch (SAGE_LIB w) (stem +:+ ".sage") →
     file_and_line w obj =
     Return (stem +:+ ".sage", (first - 1 - 3 + 1)%Z)).
Proof.
  intros Hfile Hlines Hopen Hl1 Hpre Hlib Hsrc.
  rewrite (file_and_line_autogenerated w obj stem lines first line1 pre rest
             Hfile Hlines Hopen Hl1 Hpre).
  destruct (re_parse_dots_only _ Hlib) as (p & Hp & Hyes & Hno).
  unfold re_sub_anchored. rewrite Hp, Hsrc. split.
  - intros tail ->.
    replace ((SAGE_LIB w +:+ tail) +:+ ".sage")
      with (SAGE_LIB w +:+ tail +:+ ".sage").
    + by rewrite Hyes.
    + generalize (SAGE_LIB w). intros a.
      induction a as [|c a IH]; simpl; [done|]. by rewrite IH.
  - intros Hs. by rewrite (Hno _ Hs).
Qed.

Lemma file_and_line_autogenerated_sage_witness :
  file_and_line demo_world (Object 1) =
  Return ("/home/user/script" +:+ ".sage", (10 - 1 - 3 + 1)%Z).
Proof.
  apply (proj2 (file_and_line_autogenerated_sage demo_world (Object 1)
                  "/home/user/script" [] 10 "" "# This file was "
                  (" from script.sage" +:+ newline +:+
                   "from sage.all import *" +:+ newline)
                  eq_refl eq_refl eq_refl eq_refl eq_refl eq_refl eq_refl)).
  exists 1, "u"%char. split_and!; [reflexivity|discriminate|discriminate].
Defined.

(** C5. The claim is that a file name that does not start with the library
    root is returned unchanged. With the library root
    [/usr/lib/python3.9/site-packages] the code rewrites a file name under
    [/usr/lib/python3x9/site-packages], which does not start with the
    root: the root is read as a pattern, and its dot stands for any
    character. *)
Theorem path_rewrite_reads_root_as_pattern :
  startswith "/usr/lib/python3x9/site-packages/sage/misc/foo.py"
             (SAGE_LIB demo_world) = false ∧
  re_sub_anchored demo_world (SAGE_LIB demo_world) (SAGE_SRC demo_world)
                  "/usr/lib/python3x9/site-packages/sage/misc/foo.py" =
  Return "/home/sage/src/sage/misc/foo.py" ∧
  file_and_line demo_world (Object 3) =
  Return ("/home/sage/src/sage/misc/foo.py", 10%Z).
Proof. split_and!; reflexivity. Qed.

(** ** The background marker *)

(** On a command that is not empty the two [if]s of [edit] add one [&]
    when [bg] is [True] and the command does not end in one, take one off
    when [bg] is [False] and the command ends in one, and change nothing
    otherwise. *)
Lemma background_nonempty c r :
  background (PyBool true) (String c r) =
    Return (if endswith (String c r) "&" then String c r
            else String c r +:+ "&") ∧
  background (PyBool false) (String c r) =
    Return (if endswith (String c r) "&" then drop_end 1 (String c r)
            else String c r).
Proof.
  unfold background, index_last. rewrite (endswith_last_char _ "&").
  destruct (last_char_cons c r) as [l Hl].
  cbn [is_bool Bool.eqb mbind result_bind rbind]. rewrite Hl.
  cbn [mbind result_bind rbind].
  destruct (l =? "&")%char; cbn [negb mbind result_bind rbind]; done.
Qed.

(** When [bg] is neither [True] nor [False] the command is not looked
    at. *)
Lemma background_unset bg cmd :
  is_bool true bg = false → is_bool false bg = false →
  background bg cmd = Return cmd.
Proof. unfold background. by intros -> ->. Qed.

(** C6. The claim is that [edit] with [bg] true adds one [&] to every
    command that does not end in one, and with [bg] false leaves such a
    command as it is. With the template [${file}] active and an object
    whose file is the empty string, the command is empty and does not end
    in [&]; the code raises [IndexError] for [bg] true and for [bg]
    false, and gives no command to the shell. *)
Theorem background_raises_on_empty_command :
  let t := {| template := "${file}" |} in
  let st := with_template t initial_state in
  set_edit_template (OfStr "${file}") 2 initial_state = Some (Return (), st) ∧
  file_and_line demo_world (Object 2) = Return ("", 10%Z) ∧
  substitute t {[ "line" := PyInt 10; "file" := PyStr "" ]} = Return "" ∧
  endswith "" "&" = false ∧
  edit demo_world (Object 2) None (PyBool true) 2 st =
    Some (Raise IndexError, st) ∧
  edit demo_world (Object 2) None (PyBool false) 2 st =
    Some (Raise IndexError, st).
Proof. split_and!; reflexivity. Qed.

(** C10. The two [if]s of [edit] on [bg] return a command for every
    command that is not empty. On the empty command they raise
    [IndexError] when [bg] is [True] or [False], and return it when [bg]
    is [None]. The empty command can be reached: there are a world, an
    object and a template accepted by [set_edit_template] with which
    [edit] raises that [IndexError]. *)
Theorem background_total_on_nonempty_only :
  (∀ bg c r, ∃ cmd, background bg (String c r) = Return cmd) ∧
  (∀ b, background (PyBool b) "" = Raise IndexError) ∧
  background PyNone "" = Return "" ∧
  (∃ w obj fuel st,
     set_edit_template (OfStr "${file}") fuel initial_state =
       Some (Return (), st) ∧
     ∀ b, edit w obj None (PyBool b) fuel st = Some (Raise IndexError, st)).
Proof.
  split_and!.
  - intros bg c r. destruct (background_nonempty c r) as [Ht Hf].
    destruct bg as [|[]|z|s]; eauto; by eexists.
  - by intros [].
  - reflexivity.
  - exists demo_world, (Object 2), 2,
      (with_template {| template := "${file}" |} initial_state).
    split; [reflexivity|]. by intros [].
Qed.

(** ** Further properties *)

Lemma validation_valid t : validation t = Return () ↔ valid_template t.
Proof.
  unfold validation, valid_template. rewrite <- allowed_fields_spec.
  destruct (well_formed t); [destruct (allowed_fields _)|]; naive_solver.
Qed.

(** X1. On a template that is not empty, [template_fields] ends once the
    fuel exceeds the number of placeholders and leaves the state as it
    was. When the template is well formed it returns the names of its
    placeholders, each one once; otherwise it raises the [ValueError] of
    [Template.substitute] for an invalid placeholder. *)
Theorem template_fields_placeholders t fuel st :
  is_empty (template t) = false →
  size (placeholder_set t) < fuel →
  if well_formed t then
    ∃ l, template_fields t fuel st = Some (Return l, st) ∧
         NoDup l ∧ list_to_set l = placeholder_set t
  else
    template_fields t fuel st =
    Some (Raise (ValueError InvalidPlaceholder), st).
Proof.
  intros Hne Hsz. unfold template_fields.
  destruct (template_fields_loop_total t fuel ∅) as [r Hl];
    [apply nonempty_values_empty|done| |].
  { by rewrite dom_empty_L, difference_empty_L. }
  rewrite Hl.
  apply template_fields_loop_sound in Hl; [|apply nonempty_values_empty].
  destruct r as [d|e].
  - destruct Hl as (Hdom & -> & _). exists (keys d). split_and!; [done| |].
    + apply NoDup_fst_map_to_list.
    + rewrite keys_dom, Hdom, dom_empty_L. set_solver.
  - destruct Hl as [-> ->]. done.
Qed.

Lemma template_fields_placeholders_witness :
  ∃ l, template_fields {| template := "Template ${one} with ${two} and ${three}" |}
         4 initial_state = Some (Return l, initial_state) ∧
       NoDup l ∧
       list_to_set l =
       placeholder_set {| template := "Template ${one} with ${two} and ${three}" |}.
Proof.
  apply (template_fields_placeholders
           {| template := "Template ${one} with ${two} and ${three}" |}
           4 initial_state).
  - reflexivity.
  - vm_compute. lia.
Defined.

Lemma scan_text a b :
  no_delim a = true →
  scan 0 (a +:+ b) = ((Text <$> list_ascii_of_string a) ++ scan 0 b)%list.
Proof.
  induction a as [|c a IH]; simpl; [done|].
  intros [Hc Ha]%andb_true_iff. apply negb_true_iff in Hc.
  rewrite Hc, (IH Ha). done.
Qed.

Lemma names_text l ps : names ((Text <$> l) ++ ps)%list = names ps.
Proof. unfold names. induction l as [|c l IH]; simpl; done. Qed.

Lemma invalid_free_text l ps :
  forallb (λ p, negb (is_invalid p)) ((Text <$> l) ++ ps)%list =
  forallb (λ p, negb (is_invalid p)) ps.
Proof. induction l as [|c l IH]; simpl; done. Qed.

(** Text without delimiter before a template changes neither its
    placeholders nor the verdict on it. *)
Lemma validation_text_prefix a b :
  no_delim a = true →
  validation {| template := a +:+ b |} = validation {| template := b |} ∧
  placeholder_set {| template := a +:+ b |} =
  placeholder_set {| template := b |}.
Proof.
  intros Ha. unfold validation, well_formed, placeholder_set, finditer. simpl.
  rewrite (scan_text a b Ha), names_text, invalid_free_text. done.
Qed.

Lemma template_defaults_cases editor_name t0 :
  template_defaults !! editor_name = Some t0 →
  (editor_name, t0) ∈
    [ ("vi", {| template := "vi -c ${line} ${file}" |});
      ("vim", {| template := "vim -c ${line} ${file}" |});
      ("emacs", {| template := "emacs ${opts} +${line} ${file}" |});
      ("nedit-nc", {| template := "nedit-nc -line ${line} ${file}" |});
      ("nedit-client", {| template := "nedit-client -line ${line} ${file}" |});
      ("ncl", {| template := "ncl -line ${line} ${file}" |});
      ("gedit", {| template := "gedit +${line} ${file} &" |});
      ("kate", {| template := "kate -u --line +${line} ${file} &" |}) ].
Proof. apply elem_of_list_to_map_2. Qed.

Lemma set_editor_installs editor_name t0 opts fuel st :
  template_defaults !! editor_name = Some t0 →
  no_delim opts = true →
  2 < fuel →
  ∃ s, safe_substitute t0 {[ "opts" := PyStr opts ]} = Return s ∧
       set_editor editor_name opts fuel st =
       Some (Return (), with_template {| template := s |} st) ∧
       (editor_name ≠ "emacs" → s = template t0) ∧
       (editor_name = "emacs" → s = "emacs " +:+ opts +:+ " +${line} ${file}").
Proof.
  intros Hdef Hopts Hfuel. unfold set_editor. rewrite Hdef.
  unfold mbind at 1, M_bind, bind, lift.
  apply template_defaults_cases in Hdef.
  assert (Hplain : ∀ s : string,
    validation {| template := s |} = Return () →
    size (placeholder_set {| template := s |}) = 2 →
    is_empty s = false →
    set_edit_template (OfTemplate {| template := s |}) fuel st =
    Some (Return (), with_template {| template := s |} st)).
  { intros s Hv Hsz Hne. rewrite set_edit_template_total; simpl; [|done|lia].
    unfold after_validation. simpl. by rewrite Hv. }
  repeat (apply elem_of_cons in Hdef as [[= -> ->]|Hdef]);
    [..|by apply elem_of_nil in Hdef].
  3: { exists ("emacs " +:+ opts +:+ " +${line} ${file}").
       split; [reflexivity|].
       change (sub _ _) with
         (Return (A := string) ("emacs " +:+ opts +:+ " +${line} ${file}")).
       split_and!; [|done..].
       destruct (validation_text_prefix "emacs " (opts +:+ " +${line} ${file}")
                   eq_refl) as [Hv1 Hp1].
       destruct (validation_text_prefix opts " +${line} ${file}" Hopts)
         as [Hv2 Hp2].
       apply Hplain.
       - rewrite Hv1, Hv2. reflexivity.
       - rewrite Hp1, Hp2. reflexivity.
       - reflexivity. }
  all: eexists; split; [reflexivity|];
    split_and!; [apply Hplain; reflexivity|done..].
Qed.

(** X2. For every editor of the defaults table and every option string
    without delimiter, [set_editor] succeeds and makes active the template
    of the table with the options filled in: for emacs the options stand
    where [opts] stood, and for the other editors, whose templates have no
    [opts], the template of the table itself. *)
Theorem set_editor_known editor_name t0 opts fuel st :
  template_defaults !! editor_name = Some t0 →
  no_delim opts = true →
  2 < fuel →
  ∃ s, safe_substitute t0 {[ "opts" := PyStr opts ]} = Return s ∧
       set_editor editor_name opts fuel st =
       Some (Return (), with_template {| template := s |} st) ∧
       (editor_name ≠ "emacs" → s = template t0) ∧
       (editor_name = "emacs" → s = "emacs " +:+ opts +:+ " +${line} ${file}").
Proof. apply set_editor_installs. Qed.

Lemma set_editor_known_witness :
  ∃ s, safe_substitute {| template := "emacs ${opts} +${line} ${file}" |}
         {[ "opts" := PyStr "-nw -q" ]} = Return s ∧
       set_editor "emacs" "-nw -q" 3 initial_state =
       Some (Return (), with_template {| template := s |} initial_state) ∧
       ("emacs" ≠ "emacs" → s = "emacs ${opts} +${line} ${file}") ∧
       ("emacs" = "emacs" → s = "emacs " +:+ "-nw -q" +:+ " +${line} ${file}").
Proof.
  apply (set_editor_known "emacs" {| template := "emacs ${opts} +${line} ${file}" |}
           "-nw -q" 3 initial_state); [reflexivity|reflexivity|lia].
Defined.

Lemma edit_with_template w obj editor bg fuel st t :
  truthy editor = false →
  edit_template st = Some t →
  edit w obj editor bg fuel st =
  match command w t obj bg with
  | Return cmd => os_system cmd fuel st
  | Raise e => Some (Raise e, st)
  end.
Proof.
  intros Hed Ht. unfold edit. rewrite Hed.
  unfold mbind, M_bind, bind, get_edit_template, ret, lift, raise.
  rewrite Ht. cbv beta iota. rewrite Ht. by destruct (command w t obj bg).
Qed.

(** What [edit] does in two steps: [st1] is the state once the template
    is chosen, and the rest either raises there or calls [os.system]
    once, which raises or returns. *)
Lemma edit_outcome w obj editor bg fuel st r st' :
  edit w obj editor bg fuel st = Some (r, st') →
  ∃ st1,
    (st1 = st ∨
     ∃ editor_name opts,
       set_editor editor_name opts fuel st = Some (Return (), st1)) ∧
    ((∃ e, r = Raise e ∧ st' = st1) ∨
     (∃ cmd, st' = logged cmd st1 ∧
             r = if has_nul cmd then Raise (ValueError EmbeddedNullByte)
                 else Return ())).
Proof.
  assert (Htail : ∀ st1 : State,
    (t ← get_edit_template;
     match t with
     | None => raise (ValueError NoDefaultTemplate)
     | Some t => cmd ← lift (command w t obj bg); os_system cmd
     end) fuel st1 = Some (r, st') →
    (∃ e, r = Raise e ∧ st' = st1) ∨
    (∃ cmd, st' = logged cmd st1 ∧
            r = if has_nul cmd then Raise (ValueError EmbeddedNullByte)
                else Return ())).
  { intros st1. unfold mbind, M_bind, bind, get_edit_template, lift, raise,
      os_system.
    destruct (edit_template st1) as [t|]; [|intros [= <- <-]; eauto].
    destruct (command w t obj bg) as [cmd|e]; [|intros [= <- <-]; eauto].
    intros Hos. right. exists cmd.
    destruct (has_nul cmd); by injection Hos as <- <-. }
  unfold edit. unfold mbind at 1, M_bind at 1, bind at 1.
  destruct (truthy editor).
  - destruct (set_editor _ _ fuel st) as [[[[]|e] st1]|] eqn:Hse; [| |done].
    + intros Ht%Htail. exists st1. split; [right; eauto|done].
    + intros [= <- <-]. apply set_editor_cases in Hse as ->.
      exists st. split; [by left|eauto].
  - unfold mbind at 1, M_bind at 1, bind at 1, get_edit_template at 1.
    destruct (edit_template st) as [t|] eqn:Hst.
    + unfold ret. intros Ht%Htail. exists st. split; [by left|eauto].
    + unfold try_except, editor_from_environ.
      unfold mbind at 1, M_bind at 1, bind at 1, lift at 1.
      destruct (environ w !! "EDITOR") as [ED|];
        [|intros [= <- <-]; exists st; (split; [by left|eauto])].
      unfold mbind at 1, M_bind at 1, bind at 1, lift at 1.
      destruct (split ED) as [|base rest];
        [intros [= <- <-]; exists st; (split; [by left|eauto])|].
      destruct (set_editor base _ fuel st) as [[[[]|e] st1]|] eqn:Hse;
        [| |done].
      * intros Ht%Htail. exists st1. split; [right; eauto|done].
      * apply set_editor_cases in Hse as ->.
        destruct (caught e); intros [= <- <-]; exists st;
          (split; [by left|eauto]).
Qed.

(** X10. [set_edit_template] and [set_editor] do not call [os.system].
    [edit] calls it once at most: once, on a command without the
    character of code 0, when it returns; and when it raises, either not
    at all, or once on a command with that character, the error being the
    [ValueError] of that call. *)
Theorem os_system_once_on_success w c fuel st r st' :
  run w c fuel st = Some (r, st') →
  match c with
  | Edit _ _ _ =>
      match r with
      | Return _ =>
          ∃ cmd, os_system_calls st' = cmd :: os_system_calls st ∧
                 has_nul cmd = false
      | Raise e =>
          os_system_calls st' = os_system_calls st ∨
          ∃ cmd, os_system_calls st' = cmd :: os_system_calls st ∧
                 has_nul cmd = true ∧ e = ValueError EmbeddedNullByte
      end
  | _ => os_system_calls st' = os_system_calls st
  end.
Proof.
  destruct c as [a|n o|obj editor bg]; simpl; intros Hrun.
  - apply set_edit_template_cases in Hrun. by destruct r; subst.
  - apply set_editor_cases in Hrun.
    destruct r; [destruct Hrun as (t & -> & _)|subst]; done.
  - apply edit_outcome in Hrun as (st1 & Hst1 & Hr).
    assert (os_system_calls st1 = os_system_calls st) as Hcalls.
    { destruct Hst1 as [->|(n & o & Hse)]; [done|].
      by apply set_editor_cases in Hse as (t & -> & _). }
    destruct Hr as [(e & -> & ->)|(cmd & -> & ->)]; [by left|].
    destruct (has_nul cmd) eqn:Hnul; simpl; rewrite Hcalls; eauto.
Qed.

Lemma os_system_once_on_success_witness :
  ∃ cmd,
    os_system_calls
      {| edit_template := Some {| template := "vi -c ${line} ${file}" |};
         os_system_calls := ["vi -c 10 /home/sage/src/sage/misc/foo.py"] |} =
    cmd :: os_system_calls initial_state ∧
    has_nul cmd = false.
Proof.
  apply (os_system_once_on_success demo_world
           (Edit (Object 0) (Some "vi") PyNone) 3 initial_state (Return ())).
  reflexivity.
Defined.

Lemma run_keeps_valid w c fuel st r st' :
  run w c fuel st = Some (r, st') →
  template_valid st → template_valid st'.
Proof.
  assert (Hset : ∀ n o st1,
    set_editor n o fuel st = Some (Return (), st1) →
    template_valid st1).
  { intros n o st1 Hse. apply set_editor_cases in Hse as (t & -> & Hv).
    intros t' [= <-]. by apply validation_valid. }
  destruct c as [a|n o|obj editor bg]; simpl; intros Hrun Hvalid.
  - apply set_edit_template_sound in Hrun as (_ & -> & ->).
    unfold after_validation. destruct (validation _) as [[]|] eqn:Hv; [|done].
    intros t' [= <-]. by apply validation_valid.
  - destruct r as [[]|e]; [by eapply Hset|].
    by apply set_editor_cases in Hrun as ->.
  - apply edit_outcome in Hrun as (st1 & Hst1 & Hr).
    assert (template_valid st1) as Hv1.
    { destruct Hst1 as [->|(n & o & Hse)]; [done|by eapply Hset]. }
    destruct Hr as [(e & -> & ->)|(cmd & -> & _)]; done.
Qed.

(** X3. The active template is valid after every session that starts with
    a valid one or with none: it is well formed, its placeholders are among
    [file] and [line], and [file] is one of them. *)
Theorem session_keeps_template_valid w calls fuel st st' :
  session w calls fuel st = Some st' →
  template_valid st → template_valid st'.
Proof.
  revert st. induction calls as [|c calls IH]; simpl; intros st.
  - by intros [= <-].
  - destruct (run w c fuel st) as [[r st1]|] eqn:Hrun; [|done].
    intros Hs Hv. apply (IH _ Hs). by eapply run_keeps_valid.
Qed.

Lemma session_keeps_template_valid_witness :
  template_valid
    {| edit_template := Some {| template := "gedit +${line} ${file} &" |};
       os_system_calls := ["gedit +10 /home/sage/src/sage/misc/foo.py &"] |}.
Proof.
  apply (session_keeps_template_valid demo_world
           [SetEditTemplate (OfStr "${line}");
            Edit (Object 0) (Some "gedit") PyNone;
            SetEditor "joe" ""]
           3 initial_state).
  - reflexivity.
  - intros t. discriminate.
Defined.

Lemma sub_convert_returns d ps :
  names ps ⊆ dom d →
  forallb (λ p, negb (is_invalid p)) ps = true →
  ∃ r, sub (convert d) ps = Return r.
Proof.
  induction ps as [|p ps IH]; simpl; [eauto|].
  rewrite names_cons. intros Hn [Hp Hps]%andb_true_iff.
  assert (Hps' : names ps ⊆ dom d) by (destruct (piece_name p); set_solver).
  destruct (IH Hps' Hps) as [r Hr]. rewrite Hr.
  destruct p as [c|[|k|k|]]; simpl in *; eauto.
  - assert (is_Some (d !! k)) as [v ->] by (apply elem_of_dom; set_solver).
    simpl. eauto.
  - assert (is_Some (d !! k)) as [v ->] by (apply elem_of_dom; set_solver).
    simpl. eauto.
  - done.
Qed.

Lemma valid_template_substitute t filename lineno :
  valid_template t →
  ∃ cmd, substitute t {[ "line" := PyInt lineno; "file" := PyStr filename ]}
         = Return cmd.
Proof.
  intros (Hwf & Hsub & _). apply sub_convert_returns; [|done].
  rewrite dom_insert_L, dom_singleton_L. set_solver.
Qed.

(** X4. With a valid template active and no editor given, [edit] on an
    object whose source is found cannot fail in the substitution: the
    template gives a command. [edit] then raises the exception of the two
    [if]s on [bg] if they raise, with the state as it was; otherwise it
    calls [os.system] on the command they give, and raises the
    [ValueError] of that call when the command has the character of code
    0, and returns when it has not. The template stays as it was. *)
Theorem edit_succeeds w obj editor bg fuel st t filename lineno :
  truthy editor = false →
  edit_template st = Some t →
  valid_template t →
  file_and_line w obj = Return (filename, lineno) →
  ∃ cmd,
    substitute t {[ "line" := PyInt lineno; "file" := PyStr filename ]}
    = Return cmd ∧
    edit w obj editor bg fuel st =
    match background bg cmd with
    | Return cmd' =>
        Some (if has_nul cmd' then Raise (ValueError EmbeddedNullByte)
              else Return (),
              logged cmd' st)
    | Raise e => Some (Raise e, st)
    end.
Proof.
  intros Hed Ht Hv Hfl.
  destruct (valid_template_substitute t filename lineno Hv) as [cmd Hcmd].
  exists cmd. split; [done|].
  rewrite (edit_with_template _ _ _ _ _ _ t Hed Ht).
  unfold command. rewrite Hfl. simpl. rewrite Hcmd. simpl.
  destruct (background bg cmd) as [cmd'|e]; [|done].
  unfold os_system. by destruct (has_nul cmd').
Qed.

(** A valid template with the character of code 0 in it: [edit] calls
    [os.system], which raises. *)
Example edit_embedded_null_byte :
  edit demo_world (Object 0) None PyNone 0
       (with_template {| template := "vi ${file}" +:+ String "000" "" |}
                      initial_state) =
  Some (Raise (ValueError EmbeddedNullByte),
        logged ("vi /home/sage/src/sage/misc/foo.py" +:+ String "000" "")
               (with_template {| template := "vi ${file}" +:+ String "000" "" |}
                              initial_state)).
Proof. reflexivity. Qed.

Lemma edit_succeeds_witness :
  ∃ cmd,
    substitute {| template := "echo EDIT ${file}:${line}" |}
      {[ "line" := PyInt 10;
         "file" := PyStr "/home/sage/src/sage/misc/foo.py" ]} = Return cmd ∧
    edit demo_world (Object 0) None (PyBool true) 0
         (with_template {| template := "echo EDIT ${file}:${line}" |}
                        initial_state) =
    match background (PyBool true) cmd with
    | Return cmd' =>
        Some (if has_nul cmd' then Raise (ValueError EmbeddedNullByte)
              else Return (),
              logged cmd'
                (with_template {| template := "echo EDIT ${file}:${line}" |}
                               initial_state))
    | Raise e =>
        Some (Raise e,
              with_template {| template := "echo EDIT ${file}:${line}" |}
                            initial_state)
    end.
Proof.
  apply (edit_succeeds demo_world (Object 0) None (PyBool true) 0
           (with_template {| template := "echo EDIT ${file}:${line}" |}
                          initial_state)
           {| template := "echo EDIT ${file}:${line}" |}).
  - reflexivity.
  - reflexivity.
  - split_and!.
    + reflexivity.
    + apply (bool_decide_unpack _). vm_compute. exact I.
    + apply (bool_decide_unpack _). vm_compute. exact I.
  - reflexivity.
Defined.

(** X6. With no editor given and no template active, [edit] raises the
    [ValueError] that asks for a default, and leaves the state as it was,
    when [EDITOR] is not in the environment, has no word in it, or starts
    with a word that is no editor of the defaults table. *)
Theorem edit_without_editor w obj editor bg fuel st :
  truthy editor = false →
  edit_template st = None →
  no_usable_editor w →
  edit w obj editor bg fuel st =
  Some (Raise (ValueError NoDefaultTemplate), st).
Proof.
  intros Hed Ht Hno. unfold edit. rewrite Hed.
  unfold mbind at 1, M_bind at 1, bind at 1.
  unfold mbind at 1, M_bind at 1, bind at 1, get_edit_template at 1.
  rewrite Ht. unfold try_except, editor_from_environ.
  unfold mbind at 1, M_bind at 1, bind at 1, lift at 1.
  unfold no_usable_editor in Hno.
  destruct (environ w !! "EDITOR") as [ED|]; [|done].
  unfold mbind at 1, M_bind at 1, bind at 1, lift at 1.
  destruct (split ED) as [|base rest]; [done|].
  unfold set_editor. rewrite Hno. done.
Qed.

Lemma edit_without_editor_witness :
  edit (with_environ {[ "EDITOR" := "joe -nobackups" ]} demo_world) (Object 0)
       (Some "") (PyBool true) 5 initial_state =
  Some (Raise (ValueError NoDefaultTemplate), initial_state).
Proof.
  apply edit_without_editor; reflexivity.
Defined.

(** X7. With an editor given that is not in the defaults table, [edit]
    raises the [ValueError] of [set_editor] for an unknown editor and
    leaves the state as it was, whether a template is active or not. *)
Theorem edit_unknown_editor w obj editor_name bg fuel st :
  is_empty editor_name = false →
  template_defaults !! editor_name = None →
  edit w obj (Some editor_name) bg fuel st =
  Some (Raise (ValueError EditorNameNotKnown), st).
Proof.
  intros Hne Hunk. unfold edit. simpl. rewrite Hne. simpl.
  unfold mbind at 1, M_bind at 1, bind at 1, set_editor. rewrite Hunk. done.
Qed.

Lemma edit_unknown_editor_witness :
  edit demo_world (Object 0) (Some "joe") PyNone 3
       (with_template {| template := "vi -c ${line} ${file}" |} initial_state) =
  Some (Raise (ValueError EditorNameNotKnown),
        with_template {| template := "vi -c ${line} ${file}" |} initial_state).
Proof. apply edit_unknown_editor; reflexivity. Defined.

(** X8. [edit] looks at the environment only when no editor is given and
    no template is active: otherwise it does the same in any
    environment. *)
Theorem edit_ignores_environ env w obj editor bg fuel st :
  truthy editor = true ∨ is_Some (edit_template st) →
  edit (with_environ env w) obj editor bg fuel st =
  edit w obj editor bg fuel st.
Proof.
  intros [Hed|[t Ht]].
  - unfold edit. rewrite Hed. reflexivity.
  - destruct (truthy editor) eqn:Hed.
    + unfold edit. rewrite Hed. reflexivity.
    + rewrite !(edit_with_template _ _ _ _ _ _ t Hed Ht). reflexivity.
Qed.

Lemma edit_ignores_environ_witness :
  edit (with_environ ∅ demo_world) (Object 0) None PyNone 3
       (with_template {| template := "vi -c ${line} ${file}" |} initial_state) =
  edit demo_world (Object 0) None PyNone 3
       (with_template {| template := "vi -c ${line} ${file}" |} initial_state).
Proof.
  apply edit_ignores_environ. right. by eexists.
Defined.

(** X5. With a template active and no editor given, an exception of the
    source lookup comes out of [edit] as it is; the state is left as it
    was and no command is given to the shell. *)
Theorem edit_propagates_lookup_error w obj editor bg fuel st t e :
  truthy editor = false →
  edit_template st = Some t →
  file_and_line w obj = Raise e →
  edit w obj editor bg fuel st = Some (Raise e, st).
Proof.
  intros Hed Ht Hfl. rewrite (edit_with_template _ _ _ _ _ _ t Hed Ht).
  unfold command. by rewrite Hfl.
Qed.

Lemma edit_propagates_lookup_error_witness :
  edit plain_world (Object 2) None (PyBool true) 0
       (with_template {| template := "vi -c ${line} ${file}" |} initial_state) =
  Some (Raise (OtherError "FileNotFoundError"),
        with_template {| template := "vi -c ${line} ${file}" |} initial_state).
Proof.
  apply (edit_propagates_lookup_error plain_world (Object 2) None (PyBool true)
           0 _ {| template := "vi -c ${line} ${file}" |}); reflexivity.
Defined.

(** X11. For an object whose file does not end in [.py], with a library
    root without special characters and a development root without
    backslash: [file_and_line] returns the line number of
    [sage_getsourcelines] as it is, and the file name with the library
    root at its head replaced by the development root, or the file name
    itself when it does not start with the library root. The file is not
    opened. *)
Theorem file_and_line_other_extension w obj filename lines first :
  plain (SAGE_LIB w) = true →
  has_backslash (SAGE_SRC w) = false →
  sage_getfile w obj = Return filename →
  sage_getsourcelines w obj = Return (lines, first) →
  endswith filename ".py" = false →
  (∀ rest, filename = SAGE_LIB w +:+ rest →
     file_and_line w obj = Return (SAGE_SRC w +:+ rest, first)) ∧
  (startswith filename (SAGE_LIB w) = false →
     file_and_line w obj = Return (filename, first)).
Proof.
  intros Hlib Hsrc Hfile Hlines Hext.
  destruct (re_sub_anchored_plain w _ _ Hlib Hsrc) as [Hyes Hno].
  unfold file_and_line. rewrite Hfile, Hlines.
  cbn [mbind result_bind rbind]. rewrite Hext. cbn [mbind result_bind rbind].
  replace (first - 1 + 1)%Z with first by lia. split.
  - intros rest ->. by rewrite Hyes.
  - intros Hs. by rewrite (Hno _ Hs).
Qed.

Lemma file_and_line_other_extension_witness :
  file_and_line plain_world (Object 0) =
  Return ("/home/sage/src" +:+ "/sage/symbolic/expression.pyx", 42%Z).
Proof.
  apply (proj1 (file_and_line_other_extension plain_world (Object 0)
                  "/opt/sage/lib/sage/symbolic/expression.pyx" [] 42
                  eq_refl eq_refl eq_refl eq_refl eq_refl)
               "/sage/symbolic/expression.pyx").
  reflexivity.
Defined.

Lemma readline_no_newline l :
  no_newline l = true → readline l = (l, "").
Proof.
  induction l as [|c l IH]; simpl; [done|].
  intros [Hc Hl]%andb_true_iff. apply negb_true_iff in Hc.
  by rewrite Hc, (IH Hl).
Qed.

(** X12. For an object whose file ends in [.py]: when the file cannot be
    opened, [file_and_line] raises the exception of [open]; when the file
    has one line at most, it is not taken for a generated file, whatever
    the line holds, and the file name goes to the path rewrite as it is,
    with the line number of [sage_getsourcelines]. *)
Theorem file_and_line_py_edges w obj filename lines first :
  sage_getfile w obj = Return filename →
  sage_getsourcelines w obj = Return (lines, first) →
  endswith filename ".py" = true →
  (∀ e, open_read w filename = Raise e → file_and_line w obj = Raise e) ∧
  (∀ line1, no_newline line1 = true →
     open_read w filename = Return line1 ∨
     open_read w filename = Return (line1 +:+ newline) →
     file_and_line w obj =
     (f ← re_sub_anchored w (SAGE_LIB w) (SAGE_SRC w) filename;
      Return (f, first))).
Proof.
  intros Hfile Hlines Hext. unfold file_and_line. rewrite Hfile, Hlines.
  cbn [mbind result_bind rbind]. rewrite Hext. split.
  - intros e ->. reflexivity.
  - intros line1 Hl1 Hopen.
    assert (Hsecond : ∀ text, text = line1 ∨ text = line1 +:+ newline →
              (readline (readline text).2).1 = "").
    { intros text [->| ->].
      - by rewrite (readline_no_newline line1 Hl1).
      - by rewrite (readline_app line1 newline Hl1). }
    destruct Hopen as [->| ->]; cbn [mbind result_bind rbind].
    + specialize (Hsecond line1 (or_introl eq_refl)).
      destruct (readline line1) as [l1 r1]. cbn [snd] in Hsecond.
      destruct (readline r1) as [l2 r2]. cbn [fst] in Hsecond. subst l2.
      change (find "" "*autogenerated*") with (@None nat).
      cbn [mbind result_bind rbind].
      replace (first - 1 + 1)%Z with first by lia. reflexivity.
    + specialize (Hsecond _ (or_intror eq_refl)).
      destruct (readline (line1 +:+ newline)) as [l1 r1]. cbn [snd] in Hsecond.
      destruct (readline r1) as [l2 r2]. cbn [fst] in Hsecond. subst l2.
      change (find "" "*autogenerated*") with (@None nat).
      cbn [mbind result_bind rbind].
      replace (first - 1 + 1)%Z with first by lia. reflexivity.
Qed.

Lemma file_and_line_py_edges_witness :
  file_and_line plain_world (Object 2) =
    Raise (OtherError "FileNotFoundError") ∧
  file_and_line plain_world (Object 1) =
    (f ← re_sub_anchored plain_world (SAGE_LIB plain_world)
           (SAGE_SRC plain_world) "/home/user/notes.py";
     Return (f, 42%Z)).
Proof.
  split.
  - apply (proj1 (file_and_line_py_edges plain_world (Object 2)
                    "/home/user/missing.py" [] 42 eq_refl eq_refl eq_refl)).
    reflexivity.
  - apply (proj2 (file_and_line_py_edges plain_world (Object 1)
                    "/home/user/notes.py" [] 42 eq_refl eq_refl eq_refl)
                 "# *autogenerated* is only on the first line");
      [reflexivity|by left].
Defined.

(** X13. On a command that is not empty and does not end in [&]: [bg]
    true adds one [&]; [bg] true on the result changes nothing more; and
    [bg] false on the result gives the command back. *)
Theorem background_true_then_false c r :
  endswith (String c r) "&" = false →
  background (PyBool true) (String c r) = Return (String c r +:+ "&") ∧
  background (PyBool true) (String c r +:+ "&") = Return (String c r +:+ "&") ∧
  background (PyBool false) (String c r +:+ "&") = Return (String c r).
Proof.
  intros Hend.
  destruct (background_nonempty c r) as [Ht _]. rewrite Hend in Ht.
  destruct (background_nonempty c (r +:+ "&")) as [Ht' Hf'].
  change (String c (r +:+ "&")) with (String c r +:+ "&") in Ht', Hf'.
  rewrite (endswith_app (String c r) "&") in Ht', Hf'.
  rewrite (drop_end_app (String c r) "&" : drop_end 1 _ = _) in Hf'.
  done.
Qed.

Lemma background_true_then_false_witness :
  background (PyBool true) "gedit +3 a.py" = Return ("gedit +3 a.py" +:+ "&") ∧
  background (PyBool true) ("gedit +3 a.py" +:+ "&") =
    Return ("gedit +3 a.py" +:+ "&") ∧
  background (PyBool false) ("gedit +3 a.py" +:+ "&") = Return "gedit +3 a.py".
Proof.
  apply (background_true_then_false "g" "edit +3 a.py"). reflexivity.
Defined.

(** X14. With a library root without special characters and a development
    root without backslash, [edit_devel] calls the editor hook of IPython
    with the library root at the head of the file name replaced by the
    development root, or with the file name as it is when it does not
    start with the library root, and with the line number it was given. *)
Theorem edit_devel_plain w linenum :
  plain (SAGE_LIB w) = true →
  has_backslash (SAGE_SRC w) = false →
  (∀ rest, edit_devel w (SAGE_LIB w +:+ rest) linenum =
           Return (SAGE_SRC w +:+ rest, linenum)) ∧
  (∀ filename, startswith filename (SAGE_LIB w) = false →
     edit_devel w filename linenum = Return (filename, linenum)).
Proof.
  intros Hlib Hsrc.
  destruct (re_sub_anchored_plain w _ _ Hlib Hsrc) as [Hyes Hno].
  unfold edit_devel. split.
  - intros rest. by rewrite Hyes.
  - intros filename Hs. by rewrite (Hno _ Hs).
Qed.

Lemma edit_devel_plain_witness :
  (∀ rest, edit_devel plain_world (SAGE_LIB plain_world +:+ rest) (PyInt 7) =
           Return (SAGE_SRC plain_world +:+ rest, PyInt 7)) ∧
  (∀ filename, startswith filename (SAGE_LIB plain_world) = false →
     edit_devel plain_world filename (PyInt 7) = Return (filename, PyInt 7)).
Proof. apply edit_devel_plain; reflexivity. Defined.

Lemma no_delim_app a b :
  no_delim (a +:+ b) = no_delim a && no_delim b.
Proof.
  induction a as [|c a IH]; simpl; [done|]. by rewrite IH, andb_assoc.
Qed.

Lemma split_from_no_delim s :
  ∀ cur, no_delim cur = true → no_delim s = true →
  Forall (λ x, no_delim x = true) (split_from cur s).
Proof.
  induction s as [|c s IH]; simpl; intros cur Hcur Hs.
  - destruct (is_empty cur); [constructor|by constructor].
  - apply andb_true_iff in Hs as [Hc Hs].
    destruct (is_space c).
    + destruct (is_empty cur); [by apply IH|].
      constructor; [done|by apply IH].
    + apply IH; [|done]. rewrite no_delim_app, Hcur. simpl. by rewrite Hc.
Qed.

Lemma join_no_delim l :
  Forall (λ x, no_delim x = true) l → no_delim (join " " l) = true.
Proof.
  induction 1 as [|x l Hx Hl IH]; [done|].
  destruct l as [|y l]; [done|].
  change (join " " (x :: y :: l)) with (x +:+ " " +:+ join " " (y :: l)).
  by rewrite !no_delim_app, Hx, IH.
Qed.

(** X9. With no editor given and no template active, an [EDITOR] without
    delimiter whose first word is an editor of the defaults table makes
    [edit] do what it does when the template of that editor, with the
    other words of [EDITOR] joined by blanks for its options, is active
    already. *)
Theorem edit_resolves_environ_editor w obj editor bg fuel st ED base rest t0 :
  truthy editor = false →
  edit_template st = None →
  environ w !! "EDITOR" = Some ED →
  no_delim ED = true →
  split ED = base :: rest →
  template_defaults !! base = Some t0 →
  2 < fuel →
  ∃ s, safe_substitute t0 {[ "opts" := PyStr (join " " rest) ]} = Return s ∧
       edit w obj editor bg fuel st =
       edit w obj editor bg fuel (with_template {| template := s |} st).
Proof.
  intros Hed Ht Henv HED Hsplit Hdef Hfuel.
  assert (Hopts : no_delim (join " " rest) = true).
  { apply join_no_delim.
    pose proof (split_from_no_delim ED "" eq_refl HED) as Hall.
    fold (split ED) in Hall. rewrite Hsplit in Hall.
    by apply Forall_cons in Hall as [_ Hall]. }
  destruct (set_editor_installs base t0 (join " " rest) fuel st Hdef Hopts Hfuel)
    as (s & Hs & Hse & _).
  exists s. split; [done|].
  rewrite (edit_with_template w obj editor bg fuel
             (with_template {| template := s |} st) {| template := s |} Hed
             eq_refl).
  unfold edit. rewrite Hed.
  unfold mbind at 1, M_bind at 1, bind at 1.
  unfold mbind at 1, M_bind at 1, bind at 1, get_edit_template at 1.
  rewrite Ht. unfold try_except, editor_from_environ.
  unfold mbind at 1, M_bind at 1, bind at 1, lift at 1. rewrite Henv.
  unfold mbind at 1, M_bind at 1, bind at 1, lift at 1. rewrite Hsplit.
  cbn [tail]. rewrite Hse.
  unfold mbind, M_bind, bind, get_edit_template, lift.
  simpl. by destruct (command w {| template := s |} obj bg).
Qed.

Lemma edit_resolves_environ_editor_witness :
  ∃ s, safe_substitute {| template := "emacs ${opts} +${line} ${file}" |}
         {[ "opts" := PyStr (join " " ["-nw"]) ]} = Return s ∧
       edit demo_world (Object 0) None PyNone 3 initial_state =
       edit demo_world (Object 0) None PyNone 3
            (with_template {| template := s |} initial_state).
Proof.
  apply (edit_resolves_environ_editor demo_world (Object 0) None PyNone 3 initial_state
           "emacs -nw" "emacs" ["-nw"]
           {| template := "emacs ${opts} +${line} ${file}" |});
    [reflexivity..|lia].
Defined.
